(** * EasyReads backend: a shallow embedding of the admin gate, the book
    and book-request controllers, the book-requests router and the AI chat
    fallback, with the properties of the specification settled against it.

    Conventions of the embedding:
    - JavaScript strings are Stdlib [string]s (ASCII); [trim] and
      [toLowerCase] act on the ASCII whitespace and letters.
    - A MongoDB document is a [gmap string Val]: a field that is absent is
      [None] under lookup, as [undefined] is in JavaScript.
    - A collection is the list of its documents in natural order, each with
      its [_id].
    - A handler takes the process environment, the clock ([now], what
      [new Date()] and [Date.now()] return) and a fresh ObjectId for
      inserts, the HTTP request and the stores, and returns the HTTP
      response and the new stores. *)

From stdpp Require Import base strings gmap list.
From Stdlib Require Import ZArith Ascii String.
Open Scope Z_scope.

(* ------------------------------------------------------------------ *)
(** ** JavaScript string built-ins (ASCII) *)

Definition is_js_space (c : ascii) : bool :=
  match nat_of_ascii c with
  | 9%nat | 10%nat | 11%nat | 12%nat | 13%nat | 32%nat => true
  | _ => false
  end.

Fixpoint trim_start (s : string) : string :=
  match s with
  | EmptyString => EmptyString
  | String c r => if is_js_space c then trim_start r else s
  end.

Definition rev_string (s : string) : string :=
  string_of_list_ascii (rev (list_ascii_of_string s)).

(** [String.prototype.trim] *)
Definition trim (s : string) : string :=
  rev_string (trim_start (rev_string (trim_start s))).

Definition lower_char (c : ascii) : ascii :=
  let n := nat_of_ascii c in
  if (65 <=? n)%nat && (n <=? 90)%nat then ascii_of_nat (n + 32) else c.

(** [String.prototype.toLowerCase] *)
Fixpoint toLowerCase (s : string) : string :=
  match s with
  | EmptyString => EmptyString
  | String c r => String (lower_char c) (toLowerCase r)
  end.

(** [String.prototype.split] with a one-character separator: the pieces
    between separators, empty pieces included; [""] splits to [[""]]. *)
Fixpoint split (sep : ascii) (s : string) : list string :=
  match s with
  | EmptyString => [EmptyString]
  | String c r =>
      if Ascii.eqb c sep then EmptyString :: split sep r
      else match split sep r with
           | h :: t => String c h :: t
           | [] => [String c EmptyString]
           end
  end.

Fixpoint starts_with (p s : string) : bool :=
  match p, s with
  | EmptyString, _ => true
  | String a p', String b s' => Ascii.eqb a b && starts_with p' s'
  | String _ _, EmptyString => false
  end.

(** [String.prototype.includes] *)
Fixpoint includes (s p : string) : bool :=
  starts_with p s ||
  match s with
  | EmptyString => false
  | String _ r => includes r p
  end.

(** JavaScript truthiness of an optional string ([undefined] is [None]). *)
Definition truthy_str (o : option string) : bool :=
  match o with
  | Some (String _ _) => true
  | _ => false
  end.

(* ------------------------------------------------------------------ *)
(** ** Process environment *)

Record Env := mkEnv {
  VITE_ADMIN_EMAILS : option string;
  ADMIN_EMAILS : option string;
  OPENAI_API_KEY : option string
}.

(* ------------------------------------------------------------------ *)
(** ** middleware/adminAuth.js *)

(** [process.env.VITE_ADMIN_EMAILS || process.env.ADMIN_EMAILS || ''] *)
Definition adminEnv (env : Env) : string :=
  match VITE_ADMIN_EMAILS env with
  | Some (String c r) => String c r
  | _ => match ADMIN_EMAILS env with
         | Some (String c r) => String c r
         | _ => EmptyString
         end
  end.

(** [getAdminEmails] *)
Definition getAdminEmails (env : Env) : list string :=
  match adminEnv env with
  | EmptyString => []
  | v => filter (fun e => 0 < String.length e)%nat
                (map (fun e => toLowerCase (trim e)) (split "," v))
  end.

(** [isAdminEmail]: [if (!email) return false;] then
    [adminEmails.includes(email.toLowerCase())]. *)
Definition isAdminEmail (env : Env) (email : option string) : bool :=
  if truthy_str email then
    match email with
    | Some e => existsb (String.eqb (toLowerCase e)) (getAdminEmails env)
    | None => false
    end
  else false.

(* ------------------------------------------------------------------ *)
(** ** Documents, stores, HTTP requests and responses *)

(** A JSON/BSON value as the handlers see it in [req.body] and in stored
    documents. [VNaN] is the number [NaN]; [VArr] is an array of strings. *)
Inductive Val :=
| VStr (s : string)
| VNum (n : Z)
| VNaN
| VBool (b : bool)
| VDate (t : Z)
| VNull
| VArr (l : list string).

#[global] Instance Val_eq_dec : EqDecision Val.
Proof. solve_decision. Defined.

(** JavaScript truthiness. *)
Definition truthy (v : Val) : bool :=
  match v with
  | VStr EmptyString | VNum 0 | VNaN | VBool false | VNull => false
  | _ => true
  end.

Definition truthy_opt (o : option Val) : bool :=
  match o with Some v => truthy v | None => false end.

(** A stored document: field name to value. *)
Abbreviation Doc := (gmap string Val).

(** A collection in natural order: ([_id], document). *)
Abbreviation Coll := (list (string * Doc)).

Record Store := mkStore {
  books : Coll;
  requests : Coll
}.

(** [req.user], set by the authentication layer in front of the routes. *)
Record User := mkUser { uemail : option string }.

Record Req := mkReq {
  user : option User;
  params : gmap string string;
  query : gmap string string;
  body : gmap string Val
}.

(** A number as JavaScript has it after [parseInt]: [None] is [NaN]. *)
Abbreviation jsnum := (option Z).

Record Pagination := mkPagination {
  pg_page : jsnum;
  pg_limit : jsnum;
  pg_total : Z;
  pg_pages : jsnum
}.

Record Resp := mkResp {
  code : Z;
  data : list Doc;
  pagination : option Pagination
}.

Definition status_only (c : Z) : Resp := mkResp c [] None.

(** The clock and the ObjectId generator the handlers draw on. *)
Record Ctx := mkCtx {
  env : Env;
  now : Z;
  fresh_id : string
}.

(* ------------------------------------------------------------------ *)
(** ** Collection operations of the ODM *)

Fixpoint findById (id : string) (c : Coll) : option Doc :=
  match c with
  | [] => None
  | (i, d) :: r => if String.eqb i id then Some d else findById id r
  end.

(** Replace the document with the given [_id] ([findByIdAndUpdate],
    [doc.save()]). *)
Fixpoint replaceById (id : string) (d' : Doc) (c : Coll) : Coll :=
  match c with
  | [] => []
  | (i, d) :: r =>
      if String.eqb i id then (i, d') :: r else (i, d) :: replaceById id d' r
  end.

Fixpoint deleteById (id : string) (c : Coll) : Coll :=
  match c with
  | [] => []
  | (i, d) :: r => if String.eqb i id then r else (i, d) :: deleteById id r
  end.

(** [$set] of every field of an update object. *)
Definition set_fields (upd : Doc) (d : Doc) : Doc := upd ∪ d.

(** Set a field when the value is defined: a property whose value is
    [undefined] is not stored. *)
Definition set_opt (k : string) (o : option Val) (d : Doc) : Doc :=
  match o with Some v => <[k := v]> d | None => d end.

(** Modelled from the spec: the BookRequest schema
    (Model/BookRequestSchema.js) is not among the sources; the spec (§3)
    lists its timestamps, and the copy of the schema in DOCKER_GUIDE.md
    has [{ timestamps: true }]. With it the ODM stamps [updatedAt] on
    every [save()] and [findByIdAndUpdate], and [createdAt] on insert. *)
Definition touch (t : Z) (d : Doc) : Doc := <["updatedAt" := VDate t]> d.

(* ------------------------------------------------------------------ *)
(** ** Validation helpers shared by the handlers *)

Definition is_hex (c : ascii) : bool :=
  let n := nat_of_ascii c in
  (((48 <=? n) && (n <=? 57)) || ((65 <=? n) && (n <=? 70))
   || ((97 <=? n) && (n <=? 102)))%nat.

(** [id.match(/^[0-9a-fA-F]{24}$/)] *)
Definition isObjectId (id : string) : bool :=
  (String.length id =? 24)%nat && forallb is_hex (list_ascii_of_string id).

(** The result of [if (!x || !x.trim()) return 400]: a missing or blank
    value is a 400; a truthy value that is not a string has no [trim], so
    the call throws and the error handler answers 500. *)
Inductive Check := CBad | CThrow | COk (s : string).

Definition required_str (o : option Val) : Check :=
  match o with
  | Some (VStr s) =>
      match trim s with EmptyString => CBad | _ => COk s end
  | Some v => if truthy v then CThrow else CBad
  | None => CBad
  end.

(** [x ? x.trim() : undefined]: [None] when the call throws. *)
Definition opt_trim (o : option Val) : option (option Val) :=
  match o with
  | Some (VStr s) => if truthy (VStr s) then Some (Some (VStr (trim s))) else Some None
  | Some v => if truthy v then None else Some None
  | None => Some None
  end.

(** The admin check written inline at the top of every admin handler:
    [if (!req.user || !isAdminEmail(req.user.email))]. *)
Definition admin_ok (e : Env) (r : Req) : bool :=
  match user r with
  | Some u => isAdminEmail e (uemail u)
  | None => false
  end.

Definition param (r : Req) (k : string) : string :=
  match params r !! k with Some s => s | None => EmptyString end.

(** [parseInt] on a string: leading whitespace, an optional sign, then the
    longest run of digits (hexadecimal after a [0x] or [0X] prefix);
    [NaN] when there is no digit. *)
Definition digit_val (hex : bool) (c : ascii) : option Z :=
  let n := Z.of_nat (nat_of_ascii c) in
  if (48 <=? n) && (n <=? 57) then Some (n - 48)
  else if hex && (97 <=? n) && (n <=? 102) then Some (n - 87)
  else if hex && (65 <=? n) && (n <=? 70) then Some (n - 55)
  else None.

Fixpoint digits (hex : bool) (s : string) (acc : option Z) : option Z :=
  match s with
  | EmptyString => acc
  | String c r =>
      match digit_val hex c with
      | Some d =>
          let a := match acc with Some a => a | None => 0 end in
          digits hex r (Some ((if hex then 16 else 10) * a + d))
      | None => acc
      end
  end.

Definition parseInt_unsigned (s : string) : jsnum :=
  match s with
  | String "0" (String x r) =>
      if Ascii.eqb x "x" || Ascii.eqb x "X" then digits true r None
      else digits false s None
  | _ => digits false s None
  end.

Definition parseInt_str (s : string) : jsnum :=
  match trim_start s with
  | String "-" r => option_map Z.opp (parseInt_unsigned r)
  | String "+" r => parseInt_unsigned r
  | t => parseInt_unsigned t
  end.

(** [parseInt(v)] on a body value: the value is converted to a string
    first ([String(true)] is ["true"], an array is joined with commas). *)
Definition parseInt (v : Val) : jsnum :=
  match v with
  | VStr s => parseInt_str s
  | VNum n => Some n
  | VArr l => parseInt_str (String.concat "," l)
  | _ => None
  end.

Definition num_val (j : jsnum) : Val :=
  match j with Some z => VNum z | None => VNaN end.

(** The error path of every handler: an exception reaches
    [next(error)] and the error handler answers 500; nothing was written. *)
Definition or_throw {A} (o : option A) (st : Store)
  (k : A -> Resp * Store) : Resp * Store :=
  match o with Some a => k a | None => (status_only 500, st) end.

Definition on_required (o : option Val) (st : Store)
  (k : string -> Resp * Store) : Resp * Store :=
  match required_str o with
  | CBad => (status_only 400, st)
  | CThrow => (status_only 500, st)
  | COk s => k s
  end.

(** [if (u.k) u.k = u.k.trim()] *)
Definition trim_field (k : string) (u : Doc) : option Doc :=
  match u !! k with
  | Some (VStr s) => if truthy (VStr s) then Some (<[k := VStr (trim s)]> u) else Some u
  | Some v => if truthy v then None else Some u
  | None => Some u
  end.

Definition trim_fields (ks : list string) (u : Doc) : option Doc :=
  foldl (fun acc k => match acc with Some u' => trim_field k u' | None => None end)
        (Some u) ks.

(* ------------------------------------------------------------------ *)
(** ** controllers/bookController.js: the admin-only book handlers *)

Section BookController.

(** The floating-point and date built-ins ([parseFloat], [new Date(x)])
    are not modelled; the handlers are stated for any of them. *)
Variable parseFloat : Val -> Val.
Variable toDate : Val -> Val.

Definition has_isbn (isbn : string) (e : string * Doc) : bool :=
  bool_decide (e.2 !! "ISBN" = Some (VStr isbn)).

(** [createBook] *)
Definition createBook (c : Ctx) (r : Req) (st : Store) : Resp * Store :=
  if negb (admin_ok (env c) r) then (status_only 403, st) else
  let b := body r in
  on_required (b !! "name") st (fun name =>
  on_required (b !! "author") st (fun author =>
  on_required (b !! "ISBN") st (fun isbn =>
  on_required (b !! "image_link") st (fun image_link =>
  on_required (b !! "amazon_link") st (fun amazon_link =>
  (* Book.findOne({ ISBN }) *)
  if existsb (has_isbn isbn) (books st) then (status_only 409, st) else
  or_throw (opt_trim (b !! "description")) st (fun description =>
  or_throw (opt_trim (b !! "publisher")) st (fun publisher =>
  let genre := if truthy_opt (b !! "genre") then b !! "genre" else Some (VStr "Other") in
  let language := if truthy_opt (b !! "language") then b !! "language" else Some (VStr "English") in
  let pages := match b !! "pages" with
               | Some v => if truthy v then Some (num_val (parseInt v)) else None
               | None => None end in
  let publishDate := match b !! "publishDate" with
               | Some v => if truthy v then Some (toDate v) else None
               | None => None end in
  let price := match b !! "price" with
               | Some v => if truthy v then Some (parseFloat v) else None
               | None => None end in
  let discount := match b !! "discount" with
               | Some v => if truthy v then parseFloat v else VNum 0
               | None => VNum 0 end in
  let tags := match b !! "tags" with
              | Some (VArr l) =>
                  VArr (filter (fun t => t <> EmptyString) (map trim l))
              | _ => VArr [] end in
  let doc : Doc :=
    set_opt "description" description (set_opt "genre" genre
    (set_opt "pages" pages (set_opt "publishDate" publishDate
    (set_opt "publisher" publisher (set_opt "language" language
    (set_opt "price" price
    (<["name" := VStr (trim name)]> (<["author" := VStr (trim author)]>
    (<["ISBN" := VStr (trim isbn)]> (<["image_link" := VStr (trim image_link)]>
    (<["amazon_link" := VStr (trim amazon_link)]>
    (<["discount" := discount]> (<["tags" := tags]> ∅))))))))))))) in
  (* book.save(): the unique ISBN index answers a duplicate with code 11000 *)
  if existsb (has_isbn (trim isbn)) (books st) then (status_only 409, st) else
  (mkResp 201 [doc] None,
   mkStore (books st ++ [(fresh_id c, doc)]) (requests st))))))))).

(** [updateBook] *)
Definition updateBook (c : Ctx) (r : Req) (st : Store) : Resp * Store :=
  if negb (admin_ok (env c) r) then (status_only 403, st) else
  let id := param r "id" in
  if negb (isObjectId id) then (status_only 400, st) else
  let u0 := delete "__v" (delete "_id" (body r)) in
  or_throw (trim_fields ["name"; "author"; "description"; "ISBN"] u0) st (fun u1 =>
  let conv (k : string) (f : Val -> Val) (u : Doc) : Doc :=
    match u !! k with
    | Some v => if truthy v then <[k := f v]> u else u
    | None => u
    end in
  let u2 := conv "discount" parseFloat (conv "price" parseFloat
              (conv "pages" (fun v => num_val (parseInt v)) u1)) in
  let u3 := match u2 !! "copies" with
            | Some v =>
                let n := parseInt v in
                <["availability" := VBool (match n with Some z => 0 <? z | None => false end)]>
                (<["copies" := num_val n]> u2)
            | None => u2
            end in
  match findById id (books st) with
  | None => (status_only 404, st)
  | Some d =>
      let d' := set_fields u3 d in
      (mkResp 200 [d'] None, mkStore (replaceById id d' (books st)) (requests st))
  end).

Definition allowedFields : list string :=
  ["name"; "author"; "ISBN"; "description"; "genre"; "image_link";
   "amazon_link"; "publishDate"; "pages"; "rating"; "reviewCount";
   "availability"; "copies"; "price"; "discount"; "tags"; "featured";
   "publisher"; "language"; "downloads"; "views"].

(** [patchBook] *)
Definition patchBook (c : Ctx) (r : Req) (st : Store) : Resp * Store :=
  if negb (admin_ok (env c) r) then (status_only 403, st) else
  let id := param r "id" in
  if negb (isObjectId id) then (status_only 400, st) else
  let u0 := delete "__v" (delete "_id" (body r)) in
  let updates : Doc :=
    foldl (fun acc f => match u0 !! f with Some v => <[f := v]> acc | None => acc end)
          ∅ allowedFields in
  if bool_decide (updates = ∅) then (status_only 400, st) else
  or_throw (trim_fields ["name"; "author"; "description"] updates) st (fun u1 =>
  match findById id (books st) with
  | None => (status_only 404, st)
  | Some d =>
      let d' := set_fields u1 d in
      (mkResp 200 [d'] None, mkStore (replaceById id d' (books st)) (requests st))
  end).

End BookController.

(** [deleteBook] *)
Definition deleteBook (c : Ctx) (r : Req) (st : Store) : Resp * Store :=
  if negb (admin_ok (env c) r) then (status_only 403, st) else
  let id := param r "id" in
  if negb (isObjectId id) then (status_only 400, st) else
  match findById id (books st) with
  | None => (status_only 404, st)
  | Some d => (mkResp 200 [d] None, mkStore (deleteById id (books st)) (requests st))
  end.

(** [deleteMultipleBooks]: [Book.deleteMany({ _id: { $in: ids } })] *)
Definition deleteMultipleBooks (c : Ctx) (r : Req) (st : Store) : Resp * Store :=
  if negb (admin_ok (env c) r) then (status_only 403, st) else
  match body r !! "ids" with
  | Some (VArr ((_ :: _) as ids)) =>
      if negb (forallb isObjectId ids) then (status_only 400, st) else
      (status_only 200,
       mkStore (filter (fun e => e.1 ∉ ids) (books st)) (requests st))
  | _ => (status_only 400, st)
  end.

(* ------------------------------------------------------------------ *)
(** ** Regular expressions (anchored [RegExp.prototype.test]) *)

(** Character classes used by the email pattern. *)
Inductive cls :=
| CWord            (* \w = [A-Za-z0-9_] *)
| CChar (c : ascii)
| CSet (cs : list ascii).

#[global] Instance cls_eq_dec : EqDecision cls.
Proof. solve_decision. Defined.

Definition cls_mem (k : cls) (c : ascii) : bool :=
  match k with
  | CWord =>
      let n := nat_of_ascii c in
      (((48 <=? n) && (n <=? 57)) || ((65 <=? n) && (n <=? 90))
       || ((97 <=? n) && (n <=? 122)) || (n =? 95))%nat
  | CChar d => Ascii.eqb c d
  | CSet cs => existsb (Ascii.eqb c) cs
  end.

Inductive re :=
| RNone
| REps
| RCls (k : cls)
| RCat (a b : re)
| RAlt (a b : re)
| RStar (a : re).

#[global] Instance re_eq_dec : EqDecision re.
Proof. solve_decision. Defined.

Definition rcat (a b : re) : re :=
  match a, b with
  | RNone, _ | _, RNone => RNone
  | REps, _ => b
  | _, REps => a
  | _, _ => RCat a b
  end.

Definition ralt (a b : re) : re :=
  match a, b with
  | RNone, _ => b
  | _, RNone => a
  | _, _ => if decide (a = b) then a else RAlt a b
  end.

Fixpoint nullable (r : re) : bool :=
  match r with
  | RNone | RCls _ => false
  | REps | RStar _ => true
  | RCat a b => nullable a && nullable b
  | RAlt a b => nullable a || nullable b
  end.

(** Brzozowski derivative. *)
Fixpoint deriv (c : ascii) (r : re) : re :=
  match r with
  | RNone | REps => RNone
  | RCls k => if cls_mem k c then REps else RNone
  | RCat a b =>
      if nullable a then ralt (rcat (deriv c a) b) (deriv c b)
      else rcat (deriv c a) b
  | RAlt a b => ralt (deriv c a) (deriv c b)
  | RStar a => rcat (deriv c a) (RStar a)
  end.

(** Whole-string match: the pattern is anchored by [^] and [$]. *)
Fixpoint matches (r : re) (s : string) : bool :=
  match s with
  | EmptyString => nullable r
  | String c t => matches (deriv c r) t
  end.

Definition RPlus (a : re) : re := RCat a (RStar a).
Definition ROpt (a : re) : re := RAlt REps a.

(** [/^\w+([\.-]?\w+)*@\w+([\.-]?\w+)*(\.\w{2,3})+$/] *)
Definition w_dotted : re :=
  RCat (RPlus (RCls CWord))
       (RStar (RCat (ROpt (RCls (CSet ["."%char; "-"%char]))) (RPlus (RCls CWord)))).

Definition emailRegex : re :=
  RCat w_dotted
  (RCat (RCls (CChar "@"%char))
  (RCat w_dotted
        (RPlus (RCat (RCls (CChar "."%char))
                     (RCat (RCls CWord) (RCat (RCls CWord) (ROpt (RCls CWord)))))))).

Example emailRegex_ok : matches emailRegex "jo.doe@mail.example.com" = true.
Proof. vm_compute. reflexivity. Qed.
Example emailRegex_no_at : matches emailRegex "jo.doe.example.com" = false.
Proof. vm_compute. reflexivity. Qed.
Example emailRegex_short_tld : matches emailRegex "jo@example.c" = false.
Proof. vm_compute. reflexivity. Qed.

(* ------------------------------------------------------------------ *)
(** ** JavaScript [Math.max] / [Math.min] on [parseInt] results *)

(** [Math.max(a, b)]: [NaN] when either is [NaN]. *)
Definition js_max (a : Z) (b : jsnum) : jsnum := option_map (Z.max a) b.
Definition js_min (a : Z) (b : jsnum) : jsnum := option_map (Z.min a) b.

(** The two pagination lines repeated in the list handlers:
    [Math.max(1, parseInt(page))] and
    [Math.min(100, Math.max(1, parseInt(limit)))]. *)
Definition pageNum_of (page : Val) : jsnum := js_max 1 (parseInt page).
Definition limitNum_of (limit : Val) : jsnum := js_min 100 (js_max 1 (parseInt limit)).

(** A query parameter with its destructuring default ([page = 1]). *)
Definition qparam (r : Req) (k : string) (dflt : Val) : Val :=
  match query r !! k with Some s => VStr s | None => dflt end.

(* ------------------------------------------------------------------ *)
(** ** controllers/bookRequestController.js *)



(** [req.user.email] of a caller who passed the admin check. *)
Definition caller_email (r : Req) : Val :=
  match user r with
  | Some (mkUser (Some e)) => VStr e
  | _ => VNull
  end.

(** [request.save()] of the modified document. *)
Definition save_request (c : Ctx) (id : string) (d : Doc) (st : Store) : Resp * Store :=
  let d' := touch (now c) d in
  (mkResp 200 [d'] None, mkStore (books st) (replaceById id d' (requests st))).

(** [approveBookRequest] *)
Definition approveBookRequest (c : Ctx) (r : Req) (st : Store) : Resp * Store :=
  if negb (admin_ok (env c) r) then (status_only 403, st) else
  let id := param r "id" in
  let adminNotes := body r !! "adminNotes" in
  if negb (isObjectId id) then (status_only 400, st) else
  match findById id (requests st) with
  | None => (status_only 404, st)
  | Some d =>
      let d1 := <["respondedAt" := VDate (now c)]>
                (<["respondedBy" := caller_email r]> (<["status" := VStr "approved"]> d)) in
      or_throw (opt_trim adminNotes) st (fun notes =>
      save_request c id (set_opt "adminNotes" notes d1) st)
  end.

(** [rejectBookRequest] *)
Definition rejectBookRequest (c : Ctx) (r : Req) (st : Store) : Resp * Store :=
  if negb (admin_ok (env c) r) then (status_only 403, st) else
  let id := param r "id" in
  if negb (isObjectId id) then (status_only 400, st) else
  on_required (body r !! "adminNotes") st (fun notes =>
  match findById id (requests st) with
  | None => (status_only 404, st)
  | Some d =>
      let d1 := <["adminNotes" := VStr (trim notes)]>
                (<["respondedAt" := VDate (now c)]>
                (<["respondedBy" := caller_email r]> (<["status" := VStr "rejected"]> d))) in
      save_request c id d1 st
  end).

(** [markRequestFulfilled] *)
Definition markRequestFulfilled (c : Ctx) (r : Req) (st : Store) : Resp * Store :=
  if negb (admin_ok (env c) r) then (status_only 403, st) else
  let id := param r "id" in
  if negb (isObjectId id) then (status_only 400, st) else
  match findById id (requests st) with
  | None => (status_only 404, st)
  | Some d => save_request c id (<["status" := VStr "fulfilled"]> d) st
  end.



(* ------------------------------------------------------------------ *)
(** ** Sorting as the server does it for [.sort(sort)] *)

Fixpoint str_cmp (a b : string) : comparison :=
  match a, b with
  | EmptyString, EmptyString => Eq
  | EmptyString, String _ _ => Lt
  | String _ _, EmptyString => Gt
  | String x a', String y b' =>
      match Nat.compare (nat_of_ascii x) (nat_of_ascii y) with
      | Eq => str_cmp a' b'
      | o => o
      end
  end.

Fixpoint list_cmp (a b : list string) : comparison :=
  match a, b with
  | [], [] => Eq
  | [], _ :: _ => Lt
  | _ :: _, [] => Gt
  | x :: a', y :: b' => match str_cmp x y with Eq => list_cmp a' b' | o => o end
  end.

(** BSON order of types: null (and a missing field) < numbers (NaN first)
    < strings < arrays < booleans < dates. *)
Definition bson_rank (o : option Val) : Z :=
  match o with
  | None | Some VNull => 1
  | Some VNaN => 2
  | Some (VNum _) => 3
  | Some (VStr _) => 4
  | Some (VArr _) => 6
  | Some (VBool _) => 9
  | Some (VDate _) => 10
  end.

Definition bson_cmp (a b : option Val) : comparison :=
  match a, b with
  | Some (VNum x), Some (VNum y) => Z.compare x y
  | Some (VStr x), Some (VStr y) => str_cmp x y
  | Some (VArr x), Some (VArr y) => list_cmp x y
  | Some (VBool x), Some (VBool y) => Bool.compare x y
  | Some (VDate x), Some (VDate y) => Z.compare x y
  | _, _ => Z.compare (bson_rank a) (bson_rank b)
  end.

(** A sort key: field name and whether it is descending. *)
Definition SortKey : Type := string * bool.

(** The string form of [.sort()]: space-separated field names, a leading
    [-] for descending order. *)
Definition parse_sort (s : string) : list SortKey :=
  map (fun f => match f with
                | String "-" g => (g, true)
                | _ => (f, false)
                end)
      (filter (fun f => f <> EmptyString) (split " " s)).

Fixpoint doc_cmp (ks : list SortKey) (a b : Doc) : comparison :=
  match ks with
  | [] => Eq
  | (f, desc) :: ks' =>
      match bson_cmp (a !! f) (b !! f) with
      | Eq => doc_cmp ks' a b
      | o => if desc then CompOpp o else o
      end
  end.

(** Ties keep the natural order of the collection. *)
Fixpoint insert_by (ks : list SortKey) (x : string * Doc) (l : Coll) : Coll :=
  match l with
  | [] => [x]
  | y :: t =>
      match doc_cmp ks x.2 y.2 with
      | Lt => x :: y :: t
      | _ => y :: insert_by ks x t
      end
  end.

Definition sort_by (ks : list SortKey) (l : Coll) : Coll :=
  foldl (fun acc x => insert_by ks x acc) [] l.

(** [Math.ceil(total / limitNum)] *)
Definition js_ceil_div (total : Z) (l : jsnum) : jsnum :=
  match l with
  | Some n => if 0 <? n then Some ((total + n - 1) / n) else None
  | None => None
  end.

Definition is_pending (e : string * Doc) : bool :=
  bool_decide (e.2 !! "status" = Some (VStr "pending")).

(** The returned document: [_id] with the stored fields, [adminNotes]
    removed by [.select('-adminNotes')]. *)
Definition project_public (e : string * Doc) : Doc :=
  <["_id" := VStr e.1]> (delete "adminNotes" e.2).

(** [getPendingRequests]. A [NaN] skip or limit is refused by the server,
    which the handler forwards to [next(error)]. *)
Definition getPendingRequests (c : Ctx) (r : Req) (st : Store) : Resp * Store :=
  let pageNum := pageNum_of (qparam r "page" (VNum 1)) in
  let limitNum := limitNum_of (qparam r "limit" (VNum 10)) in
  let sort := match query r !! "sort" with Some s => s | None => "-upvotes" end in
  match pageNum, limitNum with
  | Some p, Some l =>
      let skip := (p - 1) * l in
      let pending := filter (fun e => is_pending e = true) (requests st) in
      let page := take (Z.to_nat l) (drop (Z.to_nat skip) (sort_by (parse_sort sort) pending)) in
      let total := Z.of_nat (List.length pending) in
      (mkResp 200 (map project_public page)
              (Some (mkPagination pageNum limitNum total (js_ceil_div total limitNum))),
       st)
  | _, _ => (status_only 500, st)
  end.

(* ------------------------------------------------------------------ *)
(** ** routes/bookRequests.js (the [/api/book-requests] router) *)


Definition status_enum : list string := ["pending"; "approved"; "rejected"; "fulfilled"].

Definition status_valid (d : Doc) : bool :=
  match d !! "status" with
  | None => true
  | Some (VStr s) => bool_decide (s ∈ status_enum)
  | Some _ => false
  end.



(** [findByIdAndUpdate(id, upd, { new: true, runValidators: true })]: an
    unknown id is a 404, a failed validation a 400. *)
Definition router_update (c : Ctx) (id : string) (upd : Doc) (st : Store) : Resp * Store :=
  if negb (status_valid upd) then (status_only 400, st) else
  match findById id (requests st) with
  | None => (status_only 404, st)
  | Some d =>
      let d' := touch (now c) (set_fields upd d) in
      (mkResp 200 [d'] None, mkStore (books st) (replaceById id d' (requests st)))
  end.

(** [router.put('/:id')]: [{ ...req.body, updatedAt: Date.now() }] *)
Definition router_put (c : Ctx) (r : Req) (st : Store) : Resp * Store :=
  router_update c (param r "id") (<["updatedAt" := VDate (now c)]> (body r)) st.


(** [router.delete('/:id')] *)
Definition router_delete (c : Ctx) (r : Req) (st : Store) : Resp * Store :=
  let id := param r "id" in
  match findById id (requests st) with
  | None => (status_only 404, st)
  | Some d => (mkResp 200 [d] None, mkStore (books st) (deleteById id (requests st)))
  end.

(* ------------------------------------------------------------------ *)
(** ** Pagination of the list handlers *)

Inductive ListEndpoint :=
| GetAllBooks | GetBooksByGenre | GetTrendingBooks | GetFeaturedBooks
| GetAvailableBooks | GetBooksByAuthor | GetBooksByRating
| GetBooksByPriceRange | GetBooksByYear | SearchBooks
| GetBookRequests | GetUserRequests | GetPendingRequests.

(** What a list handler passes to the query: the page it computes (when it
    reads one) and the value given to [.limit()]. *)
Record Paging := mkPaging {
  eff_page : option jsnum;
  eff_limit : jsnum
}.

Definition effective_paging (e : ListEndpoint) (r : Req) : Paging :=
  match e with
  | SearchBooks =>
      (* const { q, limit = 20 } = req.query; ... .limit(parseInt(limit)) *)
      mkPaging None (parseInt (qparam r "limit" (VNum 20)))
  | GetTrendingBooks | GetFeaturedBooks =>
      mkPaging None (limitNum_of (qparam r "limit" (VNum 10)))
  | _ =>
      mkPaging (Some (pageNum_of (qparam r "page" (VNum 1))))
               (limitNum_of (qparam r "limit" (VNum 10)))
  end.

(* ------------------------------------------------------------------ *)
(** ** controllers/aiController.js *)

(** The canned replies of [generateAIResponse], in the order of its
    branches. *)
Inductive Canned :=
| FindFiction | FindScience | FindEbook | FindAudiobook | FindGeneral
| HowToUse | Recommend | Categories | RequestBooks | Features
| Greeting | DefaultReply.

#[global] Instance Canned_eq_dec : EqDecision Canned.
Proof. solve_decision. Defined.

(** [generateAIResponse] *)
Definition generateAIResponse (userMessage : string) : Canned :=
  let m := toLowerCase userMessage in
  if includes m "find" || includes m "search" || includes m "book" then
    if includes m "fiction" then FindFiction
    else if includes m "science" then FindScience
    else if includes m "ebook" || includes m "e-book" then FindEbook
    else if includes m "audiobook" then FindAudiobook
    else FindGeneral
  else if includes m "how" && (includes m "use" || includes m "work") then HowToUse
  else if includes m "recommend" || includes m "suggest" then Recommend
  else if includes m "category" || includes m "categories" then Categories
  else if includes m "request" || includes m "not available" then RequestBooks
  else if includes m "feature" || includes m "what can" then Features
  else if includes m "hello" || includes m "hi" || includes m "hey" then Greeting
  else DefaultReply.

Inductive Reply :=
| CannedReply (c : Canned)
| Completion (text : string).

Inductive ChatOut :=
| Chat400
| Chat200 (reply : Reply).

(** The module-level client: built when [OPENAI_API_KEY] is set and the
    constructor does not throw. *)
Definition openai_client (e : Env) (ctor_ok : bool) : bool :=
  truthy_str (OPENAI_API_KEY e) && ctor_ok.

(** [chatWithAI]. [api] is the completion endpoint ([None] when the call
    or the read of [choices[0].message.content] fails); the list returned
    alongside the answer is the messages sent over the network. *)
Definition chatWithAI (e : Env) (ctor_ok : bool) (api : string -> option string)
    (b : gmap string Val) : ChatOut * list string :=
  match b !! "message" with
  | Some (VStr m) =>
      match trim m with
      | EmptyString => (Chat400, [])
      | tm =>
          if negb (openai_client e ctor_ok) || negb (truthy_str (OPENAI_API_KEY e))
          then (Chat200 (CannedReply (generateAIResponse tm)), [])
          else match api tm with
               | Some text => (Chat200 (Completion text), [tm])
               | None => (Chat200 (CannedReply (generateAIResponse tm)), [tm])
               end
      end
  | _ => (Chat400, [])
  end.

(* ------------------------------------------------------------------ *)
(** ** The admin-gated write endpoints *)

Inductive AdminOp :=
| OpCreateBook | OpUpdateBook | OpPatchBook | OpDeleteBook | OpDeleteBooks
| OpApproveRequest | OpRejectRequest | OpFulfillRequest.

Definition run_admin (parseFloat toDate : Val -> Val) (op : AdminOp)
    (c : Ctx) (r : Req) (st : Store) : Resp * Store :=
  match op with
  | OpCreateBook => createBook parseFloat toDate c r st
  | OpUpdateBook => updateBook parseFloat c r st
  | OpPatchBook => patchBook c r st
  | OpDeleteBook => deleteBook c r st
  | OpDeleteBooks => deleteMultipleBooks c r st
  | OpApproveRequest => approveBookRequest c r st
  | OpRejectRequest => rejectBookRequest c r st
  | OpFulfillRequest => markRequestFulfilled c r st
  end.


(* ------------------------------------------------------------------ *)
(** ** middleware/adminAuth.js: the route middlewares *)

(** What [requireAdmin] does with a request: call [next()], or answer
    401 or 403. *)
Inductive MwOut := MwNext | Mw401 | Mw403.

#[global] Instance MwOut_eq_dec : EqDecision MwOut.
Proof. solve_decision. Defined.

(** [requireAdmin] *)
Definition requireAdmin (e : Env) (r : Req) : MwOut :=
  match user r with
  | None => Mw401
  | Some u =>
      if negb (truthy_str (uemail u)) then Mw401
      else if negb (isAdminEmail e (uemail u)) then Mw403
      else MwNext
  end.

(** [attachAdminInfo]: the values it gives [req.isAdmin] and
    [req.adminEmail] ([null] is [None]). *)
Definition attachAdminInfo (e : Env) (r : Req) : bool * option string :=
  match user r with
  | Some u =>
      if truthy_str (uemail u) && isAdminEmail e (uemail u)
      then (true, uemail u) else (false, None)
  | None => (false, None)
  end.

(* ------------------------------------------------------------------ *)
(** ** Queries shared by the read handlers *)

(** MongoDB's equality filter [{ k: s }] against a stored value: a string
    equal to [s], or an array that holds [s]. *)
Definition mongo_eq (o : option Val) (s : string) : bool :=
  match o with
  | Some (VStr t) => String.eqb t s
  | Some (VArr l) => existsb (String.eqb s) l
  | _ => false
  end.

(** A returned document with its [_id]. *)
Definition with_id (e : string * Doc) : Doc := <["_id" := VStr e.1]> e.2.

(** A returned document after [.select('-__v')]. *)
Definition select_no_v (e : string * Doc) : Doc := with_id (e.1, delete "__v" e.2).

(** [hasNext] and [hasPrev] of the pagination object of [getAllBooks] and
    [getBookRequests]. *)
Record PageFlags := mkPageFlags { hasNext : bool; hasPrev : bool }.

(** The page a handler returns for [.sort(ks).skip(skip).limit(limitNum)]
    over the matching documents, with its pagination and flags: [pageNum]
    and [limitNum] are the handler's, a [NaN] among them is refused by the
    server and answered 500. *)
Definition list_page (pageNum limitNum : jsnum) (ks : list SortKey)
    (proj : string * Doc -> Doc) (matching : Coll) : Resp * option PageFlags :=
  match pageNum, limitNum with
  | Some p, Some l =>
      let skip := (p - 1) * l in
      let page := take (Z.to_nat l) (drop (Z.to_nat skip) (sort_by ks matching)) in
      let total := Z.of_nat (List.length matching) in
      let pages := js_ceil_div total limitNum in
      (mkResp 200 (map proj page) (Some (mkPagination pageNum limitNum total pages)),
       Some (mkPageFlags (match pages with Some n => p <? n | None => false end) (1 <? p)))
  | _, _ => (status_only 500, None)
  end.

(** A truthy query string, as [if (status)] reads it. *)
Definition truthy_q (o : option string) : option string :=
  match o with Some (String c s) => Some (String c s) | _ => None end.

(* ------------------------------------------------------------------ *)
(** ** controllers/bookController.js: the public book handlers *)

Section PublicBooks.

(** Mongoose's cast of a path parameter to an ObjectId: [false] when the
    string cannot be cast and the query fails with a CastError. *)
Variable castObjectId : string -> bool.

(** [Number(s)] on a string ([None] is [NaN]). *)
Variable str_to_number : string -> jsnum.

(** [Date.prototype.toString] of a time value. *)
Variable date_text : Z -> string.

(** JavaScript's [ToNumber], used by [rating < 0] and [rating > 5]. *)
Definition js_to_number (v : Val) : jsnum :=
  match v with
  | VNum n => Some n
  | VNaN => None
  | VBool b => Some (if b then 1 else 0)
  | VNull => Some 0
  | VDate t => Some t
  | VStr s => str_to_number s
  | VArr l => str_to_number (String.concat "," l)
  end.

Definition js_lt (v : Val) (z : Z) : bool :=
  match js_to_number v with Some n => n <? z | None => false end.

Definition js_gt (v : Val) (z : Z) : bool :=
  match js_to_number v with Some n => z <? n | None => false end.

(** [x + 1] on a stored value read back from a document: [undefined + 1]
    is [NaN], a string or an array concatenates, a date gives its text. *)
Definition plus_one (o : option Val) : Val :=
  match o with
  | None => VNaN
  | Some (VNum n) => VNum (n + 1)
  | Some VNaN => VNaN
  | Some VNull => VNum 1
  | Some (VBool b) => VNum (if b then 2 else 1)
  | Some (VStr s) => VStr (s ++ "1")
  | Some (VArr l) => VStr (String.concat "," l ++ "1")
  | Some (VDate t) => VStr (date_text t ++ "1")
  end.

(** Mongoose's cast of a value to a [Number] path ([castNumber]): [null]
    and [undefined] pass, [''] is [null], strings and booleans go through
    [Number], [NaN] fails, a date gives its time value, an array fails. *)
Definition castNumber (v : Val) : option Val :=
  match v with
  | VNum n => Some (VNum n)
  | VNaN => None
  | VNull => Some VNull
  | VBool b => Some (VNum (if b then 1 else 0))
  | VStr EmptyString => Some VNull
  | VStr s => option_map VNum (str_to_number s)
  | VDate t => Some (VNum t)
  | VArr _ => None
  end.

(** [book.views = (book.views || 0) + 1], cast to the [views] path:
    [None] when the cast fails and the save throws. *)
Definition views_next (o : option Val) : option Val :=
  castNumber (plus_one (Some (match o with
                              | Some v => if truthy v then v else VNum 0
                              | None => VNum 0 end))).

(** [getBookById]: the view counter is saved with the book. *)
Definition getBookById (c : Ctx) (r : Req) (st : Store) : Resp * Store :=
  let id := param r "id" in
  if negb (isObjectId id) then (status_only 400, st) else
  match findById id (books st) with
  | None => (status_only 404, st)
  | Some d =>
      or_throw (views_next (d !! "views")) st (fun v =>
      let d' := <["views" := v]> d in
      (mkResp 200 [select_no_v (id, d')] None,
       mkStore (replaceById id d' (books st)) (requests st)))
  end.



(** [updateBookRating]. The update object is built first: when
    [reviewCount] is falsy, [(await Book.findById(id)).reviewCount + 1]
    throws on a CastError or on a [null] book. The Book schema's
    validators are not among the sources and are not modelled. *)
Definition updateBookRating (c : Ctx) (r : Req) (st : Store) : Resp * Store :=
  let id := param r "id" in
  match body r !! "rating" with
  | None => (status_only 400, st)
  | Some rating =>
      if js_lt rating 0 || js_gt rating 5 then (status_only 400, st) else
      let rc : option Val :=
        match body r !! "reviewCount" with
        | Some v => if truthy v then Some v else None
        | None => None
        end in
      let reviewCount : option Val :=
        match rc with
        | Some v => Some v
        | None =>
            if negb (castObjectId id) then None else
            match findById id (books st) with
            | None => None
            | Some d0 => Some (plus_one (d0 !! "reviewCount"))
            end
        end in
      or_throw reviewCount st (fun rcv =>
      if negb (castObjectId id) then (status_only 500, st) else
      or_throw (castNumber rating) st (fun rating' =>
      or_throw (castNumber rcv) st (fun rcv' =>
      match findById id (books st) with
      | None => (status_only 404, st)
      | Some d =>
          let d' := <["rating" := rating']> (<["reviewCount" := rcv']> d) in
          (mkResp 200 [select_no_v (id, d')] None,
           mkStore (replaceById id d' (books st)) (requests st))
      end)))
  end.

End PublicBooks.

Section BookLists.

(** [{ $regex: p, $options: 'i' }]: whether [p] compiles, and the
    case-insensitive test of a string against it; the regular expression
    engine is not modelled. *)
Variable regex_ok : string -> bool.
Variable regex_test : string -> string -> bool.

(** A [$regex] condition on a stored value: a string that matches, or an
    array with a matching string. *)
Definition regex_field (p : string) (o : option Val) : bool :=
  match o with
  | Some (VStr s) => regex_test p s
  | Some (VArr l) => existsb (regex_test p) l
  | _ => false
  end.

(** [getAllBooks] *)
Definition getAllBooks (c : Ctx) (r : Req) (st : Store) : Resp * option PageFlags :=
  let genre := truthy_q (query r !! "genre") in
  let search := truthy_q (query r !! "search") in
  let sortBy := match query r !! "sortBy" with Some s => s | None => "createdAt" end in
  let order := match query r !! "order" with Some s => s | None => "desc" end in
  let keep (e : string * Doc) : bool :=
    match genre with Some g => mongo_eq (e.2 !! "genre") g | None => true end &&
    match search with
    | Some s => regex_field s (e.2 !! "name") || regex_field s (e.2 !! "author")
                || regex_field s (e.2 !! "description")
    | None => true
    end in
  if match search with Some s => negb (regex_ok s) | None => false end
  then (status_only 500, None) else
  list_page (pageNum_of (qparam r "page" (VNum 1)))
            (limitNum_of (qparam r "limit" (VNum 10)))
            [(sortBy, negb (String.eqb order "asc"))] select_no_v
            (filter (fun e => keep e = true) (books st)).

(** [getBooksByGenre] *)
Definition getBooksByGenre (c : Ctx) (r : Req) (st : Store) : Resp :=
  match params r !! "genre" with
  | Some g =>
      match trim g with
      | EmptyString => status_only 400
      | _ =>
          (list_page (pageNum_of (qparam r "page" (VNum 1)))
                     (limitNum_of (qparam r "limit" (VNum 10)))
                     [("rating", true)] select_no_v
                     (filter (fun e => mongo_eq (e.2 !! "genre") g = true) (books st))).1
      end
  | None => status_only 400
  end.

(** [getBooksByAuthor] *)
Definition getBooksByAuthor (c : Ctx) (r : Req) (st : Store) : Resp :=
  match params r !! "author" with
  | Some a =>
      match trim a with
      | EmptyString => status_only 400
      | _ =>
          if negb (regex_ok a) then status_only 500 else
          (list_page (pageNum_of (qparam r "page" (VNum 1)))
                     (limitNum_of (qparam r "limit" (VNum 10)))
                     [("publishDate", true)] select_no_v
                     (filter (fun e => regex_field a (e.2 !! "author") = true) (books st))).1
      end
  | None => status_only 400
  end.

End BookLists.

(** [.sort(ks).limit(limitNum)] of the unpaginated lists; [NaN] is
    answered 500. *)
Definition top_list (limitNum : jsnum) (ks : list SortKey) (matching : Coll) : Resp :=
  match limitNum with
  | Some l => mkResp 200 (map select_no_v (take (Z.to_nat l) (sort_by ks matching))) None
  | None => status_only 500
  end.

(** [getTrendingBooks] *)
Definition getTrendingBooks (c : Ctx) (r : Req) (st : Store) : Resp :=
  top_list (limitNum_of (qparam r "limit" (VNum 10)))
           [("rating", true); ("downloads", true); ("views", true); ("createdAt", true)]
           (books st).

(** MongoDB's equality filter [{ k: true }]. *)
Definition mongo_true (o : option Val) : bool :=
  match o with Some (VBool true) => true | _ => false end.

(** [getFeaturedBooks] *)
Definition getFeaturedBooks (c : Ctx) (r : Req) (st : Store) : Resp :=
  top_list (limitNum_of (qparam r "limit" (VNum 10))) [("createdAt", true)]
           (filter (fun e => mongo_true (e.2 !! "featured") = true) (books st)).

(** [getAvailableBooks] *)
Definition getAvailableBooks (c : Ctx) (r : Req) (st : Store) : Resp :=
  (list_page (pageNum_of (qparam r "page" (VNum 1)))
             (limitNum_of (qparam r "limit" (VNum 10)))
             [("createdAt", true)] select_no_v
             (filter (fun e => mongo_true (e.2 !! "availability") = true) (books st))).1.

(* ------------------------------------------------------------------ *)
(** ** controllers/bookRequestController.js: the read handlers *)

(** [getBookRequests] *)
Definition getBookRequests (c : Ctx) (r : Req) (st : Store) : Resp * option PageFlags :=
  if negb (admin_ok (env c) r) then (status_only 403, None) else
  let status := truthy_q (query r !! "status") in
  let sort := match query r !! "sort" with Some s => s | None => "-createdAt" end in
  list_page (pageNum_of (qparam r "page" (VNum 1)))
            (limitNum_of (qparam r "limit" (VNum 10)))
            (parse_sort sort) select_no_v
            (filter (fun e => match status with
                              | Some s => mongo_eq (e.2 !! "status") s
                              | None => true end = true) (requests st)).

(** [getBookRequestById]: no projection, the whole stored document. *)
Definition getBookRequestById (c : Ctx) (r : Req) (st : Store) : Resp :=
  if negb (admin_ok (env c) r) then status_only 403 else
  let id := param r "id" in
  if negb (isObjectId id) then status_only 400 else
  match findById id (requests st) with
  | None => status_only 404
  | Some d => mkResp 200 [with_id (id, d)] None
  end.

(** [getUserRequests]: the caller's requests, found by the lowercased
    email of the token. *)
Definition getUserRequests (c : Ctx) (r : Req) (st : Store) : Resp :=
  match user r with
  | Some (mkUser (Some (String ch s))) =>
      let em := toLowerCase (String ch s) in
      (list_page (pageNum_of (qparam r "page" (VNum 1)))
                 (limitNum_of (qparam r "limit" (VNum 10)))
                 (parse_sort "-createdAt") select_no_v
                 (filter (fun e => mongo_eq (e.2 !! "requesterEmail") em = true) (requests st))).1
  | _ => status_only 401
  end.

Section RequestStatics.

(** The static methods [BookRequest.getStats] and
    [BookRequest.getPopularRequests] of the schema, which is not among the
    sources ([None] when they fail). *)
Variable getStats : Coll -> option Doc.
Variable popularRequests : jsnum -> Coll -> option (list Doc).

(** [getRequestStats] *)
Definition getRequestStats (c : Ctx) (r : Req) (st : Store) : Resp :=
  if negb (admin_ok (env c) r) then status_only 403 else
  match getStats (requests st) with
  | Some s => mkResp 200 [s] None
  | None => status_only 500
  end.

(** [getPopularRequests] *)
Definition getPopularRequests (c : Ctx) (r : Req) (st : Store) : Resp :=
  if negb (admin_ok (env c) r) then status_only 403 else
  match popularRequests (parseInt (qparam r "limit" (VNum 10))) (requests st) with
  | Some l => mkResp 200 l None
  | None => status_only 500
  end.

End RequestStatics.

(* ------------------------------------------------------------------ *)
(** ** routes/bookRequests.js: the read routes *)

(** [router.get('/')]: every request, or those with the given status,
    newest [requestedAt] first; no projection. *)
Definition router_get_all (r : Req) (st : Store) : Resp :=
  let status := truthy_q (query r !! "status") in
  mkResp 200
    (map with_id (sort_by [("requestedAt", true)]
       (filter (fun e => match status with
                         | Some s => mongo_eq (e.2 !! "status") s
                         | None => true end = true) (requests st))))
    None.

Section RouterReads.

Variable castObjectId : string -> bool.

(** [router.get('/:id')]: a CastError is answered 500. *)
Definition router_get_id (r : Req) (st : Store) : Resp :=
  let id := param r "id" in
  if negb (castObjectId id) then status_only 500 else
  match findById id (requests st) with
  | None => status_only 404
  | Some d => mkResp 200 [with_id (id, d)] None
  end.

End RouterReads.

(** [router.get('/user/:uid')] *)
Definition router_get_user (r : Req) (st : Store) : Resp :=
  let uid := param r "uid" in
  mkResp 200
    (map with_id (sort_by [("requestedAt", true)]
       (filter (fun e => mongo_eq (e.2 !! "requestedByUid") uid = true) (requests st))))
    None.

(** A sequence of [GET /api/books/:id] calls, each with its own caller. *)
Definition view_all (str_to_number : string -> jsnum) (date_text : Z -> string)
    (calls : list (Ctx * Req)) (st : Store) : Store :=
  foldl (fun s cr => (getBookById str_to_number date_text cr.1 cr.2 s).2) st calls.


(* ================================================================== *)
(** * Properties *)

(* ------------------------------------------------------------------ *)
(** ** The admin membership check *)

Definition env_admin : Env := mkEnv (Some "admin@easyreads.com") None None.

Example isAdminEmail_exact : isAdminEmail env_admin (Some "Admin@EasyReads.com") = true.
Proof. reflexivity. Qed.

Lemma getAdminEmails_nonempty (e : Env) (x : string) :
  x ∈ getAdminEmails e -> x <> EmptyString.
Proof.
  unfold getAdminEmails. destruct (adminEnv e) as [|c s].
  - intros Hx. inversion Hx.
  - intros Hx. apply list_elem_of_filter in Hx as [Hlen _].
    intros ->. simpl in Hlen. lia.
Qed.

Lemma existsb_eqb_elem (x : string) (l : list string) :
  existsb (String.eqb x) l = true <-> x ∈ l.
Proof.
  rewrite existsb_exists, list_elem_of_In. split.
  - intros [y [Hy Heq]]. apply String.eqb_eq in Heq. subst. exact Hy.
  - intros Hx. exists x. split; [exact Hx | apply String.eqb_refl].
Qed.

(** C3 (counterexample): with [admin@easyreads.com] configured, the
    address with a leading space is refused, although its trimmed,
    lowercased form is in the configured set. *)
Lemma isAdminEmail_input_not_trimmed :
  isAdminEmail env_admin (Some " admin@easyreads.com") = false /\
  toLowerCase (trim " admin@easyreads.com") ∈ getAdminEmails env_admin.
Proof. split; [reflexivity | vm_compute; left]. Qed.

(** C3 (amended): [isAdminEmail] returns true exactly when the lowercased
    input (not trimmed) is in the set obtained by splitting the configured
    value on commas, trimming and lowercasing each entry and dropping the
    empty ones; with no configured value it returns false for every
    email. *)
Theorem isAdminEmail_spec (e : Env) :
  (forall email : string,
     isAdminEmail e (Some email) = true <-> toLowerCase email ∈ getAdminEmails e) /\
  (adminEnv e = EmptyString -> getAdminEmails e = [] /\
     forall email : option string, isAdminEmail e email = false).
Proof.
  split.
  - intros email. unfold isAdminEmail. destruct email as [|c s] eqn:He; simpl.
    + split; [discriminate |]. intros Hin.
      exfalso. exact (getAdminEmails_nonempty e EmptyString Hin eq_refl).
    + rewrite <- existsb_eqb_elem. reflexivity.
  - intros Hempty. assert (Hg : getAdminEmails e = []).
    { unfold getAdminEmails. rewrite Hempty. reflexivity. }
    split; [exact Hg |].
    intros [email|]; unfold isAdminEmail; [| reflexivity].
    destruct (truthy_str (Some email)); [| reflexivity]. rewrite Hg. reflexivity.
Qed.

(** C3: witness of the amended statement on a configured environment. *)
Lemma isAdminEmail_spec_witness :
  adminEnv (mkEnv None (Some "") None) = EmptyString /\
  isAdminEmail (mkEnv None (Some "") None) (Some "admin@easyreads.com") = false.
Proof.
  split; [reflexivity |].
  apply (proj2 (isAdminEmail_spec (mkEnv None (Some "") None)) eq_refl).
Defined.

(* ------------------------------------------------------------------ *)
(** ** Collection lemmas *)

Lemma findById_replace (id id' : string) (d' : Doc) (c : Coll) :
  findById id' (replaceById id d' c) =
  if String.eqb id id' then option_map (fun _ => d') (findById id c)
  else findById id' c.
Proof.
  induction c as [|[i d] r IH]; simpl.
  - destruct (String.eqb id id'); reflexivity.
  - destruct (String.eqb_spec i id) as [->|Hne]; simpl.
    + destruct (String.eqb_spec id id') as [->|Hne']; simpl; [reflexivity |].
      destruct (String.eqb_spec id id'); [contradiction | reflexivity].
    + rewrite IH. destruct (String.eqb_spec i id') as [->|Hne'].
      * destruct (String.eqb_spec id id') as [->|]; [contradiction | reflexivity].
      * reflexivity.
Qed.

(* ------------------------------------------------------------------ *)
(** ** The admin gate of the write endpoints *)

(** Every admin-gated handler answers 403 and writes nothing when the
    inline check fails. *)
Lemma admin_gate (parseFloat toDate : Val -> Val) (op : AdminOp)
    (c : Ctx) (r : Req) (st : Store) :
  admin_ok (env c) r = false ->
  run_admin parseFloat toDate op c r st = (status_only 403, st).
Proof. intros H. destruct op; simpl; unfold createBook, updateBook, patchBook,
  deleteBook, deleteMultipleBooks, approveBookRequest, rejectBookRequest,
  markRequestFulfilled; rewrite H; reflexivity. Qed.

Definition ctx0 : Ctx := mkCtx env_admin 1000 "650000000000000000000099".
Definition anon_req : Req := mkReq None ∅ ∅ ∅.
Definition store0 : Store := mkStore [] [].

(** C1 (counterexample): a call to create a book with no authenticated
    identity is answered 403, not 401. *)
Lemma createBook_anonymous_not_401 :
  code (run_admin (fun v => v) (fun v => v) OpCreateBook ctx0 anon_req store0).1 <> 401 /\
  code (run_admin (fun v => v) (fun v => v) OpCreateBook ctx0 anon_req store0).1 = 403.
Proof. split; [discriminate | reflexivity]. Qed.

(** C1 (amended): on every admin-gated write (book create, update, patch,
    delete and bulk delete; request approve, reject and fulfill) a call
    with no authenticated identity, or with an identity whose email is not
    an admin's, is answered 403 and leaves both collections unchanged. *)
Theorem admin_writes_forbidden (parseFloat toDate : Val -> Val) (op : AdminOp)
    (c : Ctx) (r : Req) (st : Store) :
  (user r = None \/
   exists u, user r = Some u /\ isAdminEmail (env c) (uemail u) = false) ->
  run_admin parseFloat toDate op c r st = (status_only 403, st).
Proof.
  intros Hno. apply admin_gate. unfold admin_ok.
  destruct Hno as [-> | [u [-> Hu]]]; [reflexivity | exact Hu].
Qed.

(** C1: witness, a non-admin deleting a book. *)
Lemma admin_writes_forbidden_witness :
  deleteBook ctx0 (mkReq (Some (mkUser (Some "reader@example.com"))) ∅ ∅ ∅) store0
  = (status_only 403, store0).
Proof.
  apply (admin_writes_forbidden (fun v => v) (fun v => v) OpDeleteBook).
  right. eexists. split; [reflexivity | reflexivity].
Defined.

(* ------------------------------------------------------------------ *)
(** ** Who may change a book request *)

Definition rid1 : string := "650000000000000000000001".

Definition pending_doc : Doc :=
  <["bookName" := VStr "Dune"]> (<["author" := VStr "Frank Herbert"]>
  (<["requestedBy" := VStr "reader@example.com"]>
  (<["status" := VStr "pending"]> ∅))).

Definition store1 : Store := mkStore [] [(rid1, pending_doc)].






(* ------------------------------------------------------------------ *)
(** ** Pagination *)

Definition list_req (q : gmap string string) : Req := mkReq None ∅ q ∅.

Example getAllBooks_limit_500 :
  effective_paging GetAllBooks (list_req {[ "limit" := "500" ]})
  = mkPaging (Some (Some 1)) (Some 100).
Proof. reflexivity. Qed.

Example getPendingRequests_page_0 :
  effective_paging GetPendingRequests (list_req {[ "page" := "0" ]})
  = mkPaging (Some (Some 1)) (Some 10).
Proof. reflexivity. Qed.

(** C4: the clamp of the paginated handlers and of the trending and
    featured lists: page at least 1, limit in [1, 100]. *)
Lemma paging_clamped (e : ListEndpoint) (r : Req) (l : Z) :
  e <> SearchBooks ->
  eff_limit (effective_paging e r) = Some l -> 1 <= l <= 100.
Proof.
  intros Hne. unfold effective_paging, limitNum_of, js_min, js_max.
  destruct e; try congruence; simpl;
  destruct (parseInt _); simpl; intros H; inversion H; lia.
Qed.

(** C4 (code bug): [searchBooks] hands [parseInt(limit)] to [.limit()]
    unclamped, so [limit=500] stays 500 there while [getAllBooks] and the
    other list handlers clamp it to 100. *)
Theorem searchBooks_limit_unclamped :
  eff_limit (effective_paging SearchBooks (list_req {[ "q" := "dune"; "limit" := "500" ]}))
    = Some 500 /\
  eff_limit (effective_paging GetAllBooks (list_req {[ "limit" := "500" ]})) = Some 100.
Proof. split; reflexivity. Qed.

(* ------------------------------------------------------------------ *)
(** ** The admin transitions of a request *)

Definition admin_req (id : string) (b : gmap string Val) : Req :=
  mkReq (Some (mkUser (Some "admin@easyreads.com"))) {[ "id" := id ]} ∅ b.



(* ------------------------------------------------------------------ *)
(** ** Rejecting a request *)



(* ------------------------------------------------------------------ *)
(** ** Email validation on request creation *)







(* ------------------------------------------------------------------ *)
(** ** Upvotes *)









(* ------------------------------------------------------------------ *)
(** ** The AI chat without an API key *)

Definition env_nokey : Env := mkEnv None None None.

Example chat_hello :
  chatWithAI env_nokey false (fun _ => None) {[ "message" := VStr "Hello there" ]}
  = (Chat200 (CannedReply Greeting), []).
Proof. vm_compute. reflexivity. Qed.

(** C9 (counterexample): without a key, a message containing "hello" that
    also asks to find a book gets the book-search reply, not the greeting,
    and a message of spaces only is refused with 400 rather than answered. *)
Lemma chat_hello_not_greeting :
  includes (toLowerCase "Hello! Can you find me a book?") "hello" = true /\
  chatWithAI env_nokey false (fun _ => None)
    {[ "message" := VStr "Hello! Can you find me a book?" ]}
  = (Chat200 (CannedReply FindGeneral), []) /\
  chatWithAI env_nokey false (fun _ => None) {[ "message" := VStr "   " ]} = (Chat400, []).
Proof. vm_compute. auto. Qed.

(** C9 (amended): with no OpenAI key configured, a message string whose
    trimmed form is non-empty is answered without any network call by the
    canned reply that the keyword table picks for the lowercased trimmed
    message (rules tried in order: search words, how-to, recommend,
    category, request, feature, greeting, then the default), whatever the
    completion endpoint would answer; a greeting word gives the greeting
    reply only when no earlier rule matches. *)
Theorem chat_without_key (e : Env) (ctor_ok : bool) (api : string -> option string)
    (b : gmap string Val) (m : string) :
  truthy_str (OPENAI_API_KEY e) = false ->
  b !! "message" = Some (VStr m) ->
  trim m <> EmptyString ->
  chatWithAI e ctor_ok api b = (Chat200 (CannedReply (generateAIResponse (trim m))), []) /\
  (let lm := toLowerCase (trim m) in
   includes lm "hello" = true ->
   existsb (includes lm) ["find"; "search"; "book"; "recommend"; "suggest";
                          "category"; "categories"; "request"; "not available";
                          "feature"; "what can"] = false ->
   (includes lm "how" && (includes lm "use" || includes lm "work")) = false ->
   generateAIResponse (trim m) = Greeting).
Proof.
  intros Hkey Hb Hm. split.
  - unfold chatWithAI, openai_client. rewrite Hb, Hkey.
    destruct (trim m) as [|ch rest]; [contradiction | reflexivity].
  - simpl. intros Hhello Hnone Hhow. unfold generateAIResponse.
    repeat (apply orb_false_iff in Hnone as [? Hnone]).
    repeat match goal with
           | H : ?x = false |- context [?x] => rewrite H
           end.
    rewrite Hhello. reflexivity.
Qed.

Definition hi_body : gmap string Val := {[ "message" := VStr "  Hi, hello!  " ]}.

(** C9: witness, a plain greeting. *)
Lemma chat_without_key_witness :
  chatWithAI env_nokey true (fun _ => Some "model answer")
    hi_body
  = (Chat200 (CannedReply (generateAIResponse (trim "  Hi, hello!  "))), []) /\
  generateAIResponse (trim "  Hi, hello!  ") = Greeting.
Proof.
  destruct (chat_without_key env_nokey true (fun _ => Some "model answer")
              hi_body "  Hi, hello!  "
              eq_refl ltac:(vm_compute; reflexivity) ltac:(vm_compute; discriminate))
    as [H1 H2].
  split; [exact H1 |].
  apply H2; vm_compute; reflexivity.
Defined.

(* ------------------------------------------------------------------ *)
(** ** The public listing of pending requests *)

Definition strip_notes1 (e : string * Doc) : string * Doc :=
  (e.1, delete "adminNotes" e.2).

(** The collection with every [adminNotes] removed: two collections that
    differ only in their [adminNotes] values have the same image. *)
Definition strip_notes (c : Coll) : Coll := map strip_notes1 c.

Definition idA : string := "650000000000000000000001".
Definition idB : string := "650000000000000000000002".

Definition noted (title notes : string) : Doc :=
  <["title" := VStr title]> (<["status" := VStr "pending"]>
  (<["upvotes" := VNum 0]> (<["adminNotes" := VStr notes]> ∅))).

Definition notes_store1 : Store := mkStore [] [(idA, noted "A" "a"); (idB, noted "B" "b")].
Definition notes_store2 : Store := mkStore [] [(idA, noted "A" "b"); (idB, noted "B" "a")].

Definition sort_by_notes : Req := mkReq None ∅ {[ "sort" := "adminNotes" ]} ∅.

Definition ids_of (rs : Resp) : list (option Val) := map (fun d => d !! "_id") (data rs).

(** C10 (counterexample): two stores that differ only in [adminNotes];
    with [?sort=adminNotes] the public listing returns the requests in
    different orders, so its output depends on the hidden field. *)
Lemma pending_order_reveals_notes :
  strip_notes (requests notes_store1) = strip_notes (requests notes_store2) /\
  ids_of (getPendingRequests ctx0 sort_by_notes notes_store1).1 = [Some (VStr idA); Some (VStr idB)] /\
  ids_of (getPendingRequests ctx0 sort_by_notes notes_store2).1 = [Some (VStr idB); Some (VStr idA)].
Proof.
  split; [| vm_compute; auto].
  vm_compute. reflexivity.
Qed.

Lemma doc_cmp_strip (ks : list SortKey) (a b : Doc) :
  "adminNotes" ∉ ks.*1 ->
  doc_cmp ks (delete "adminNotes" a) (delete "adminNotes" b) = doc_cmp ks a b.
Proof.
  induction ks as [|[f desc] ks IH]; simpl; intros Hn; [reflexivity |].
  apply not_elem_of_cons in Hn as [Hf Hks].
  rewrite !lookup_delete_ne by congruence. rewrite IH by exact Hks. reflexivity.
Qed.

Lemma insert_by_strip (ks : list SortKey) (x : string * Doc) (l : Coll) :
  "adminNotes" ∉ ks.*1 ->
  insert_by ks (strip_notes1 x) (strip_notes l) = strip_notes (insert_by ks x l).
Proof.
  intros Hn. induction l as [|y l IH]; simpl; [reflexivity |].
  rewrite (doc_cmp_strip ks x.2 y.2 Hn).
  destruct (doc_cmp ks x.2 y.2); simpl; try reflexivity; rewrite IH; reflexivity.
Qed.

Lemma sort_by_strip (ks : list SortKey) (l : Coll) :
  "adminNotes" ∉ ks.*1 ->
  sort_by ks (strip_notes l) = strip_notes (sort_by ks l).
Proof.
  intros Hn. unfold sort_by.
  assert (H : forall acc, foldl (fun a x => insert_by ks x a) (strip_notes acc) (strip_notes l)
                          = strip_notes (foldl (fun a x => insert_by ks x a) acc l)).
  { induction l as [|x l IH]; intros acc; simpl; [reflexivity |].
    rewrite insert_by_strip by exact Hn. apply IH. }
  exact (H []).
Qed.

Lemma is_pending_strip (e : string * Doc) : is_pending (strip_notes1 e) = is_pending e.
Proof.
  unfold is_pending, strip_notes1. simpl. rewrite lookup_delete_ne by congruence. reflexivity.
Qed.

Lemma filter_pending_strip (l : Coll) :
  filter (fun e => is_pending e = true) (strip_notes l)
  = strip_notes (filter (fun e => is_pending e = true) l).
Proof.
  induction l as [|x l IH]; [reflexivity |].
  unfold strip_notes. simpl. fold (strip_notes l).
  rewrite !filter_cons, is_pending_strip.
  destruct (decide (is_pending x = true)); simpl; rewrite IH; reflexivity.
Qed.

Lemma project_public_strip (e : string * Doc) : project_public (strip_notes1 e) = project_public e.
Proof. unfold project_public, strip_notes1. simpl. rewrite delete_delete_eq. reflexivity. Qed.

Lemma pending_resp_strip (c : Ctx) (r : Req) (st : Store) :
  "adminNotes" ∉ (parse_sort (match query r !! "sort" with Some s => s | None => "-upvotes" end)).*1 ->
  (getPendingRequests c r st).1 = (getPendingRequests c r (mkStore [] (strip_notes (requests st)))).1.
Proof.
  intros Hn. unfold getPendingRequests. simpl.
  destruct (pageNum_of (qparam r "page" (VNum 1))), (limitNum_of (qparam r "limit" (VNum 10))); try reflexivity. simpl.
  rewrite filter_pending_strip, sort_by_strip by exact Hn.
  unfold strip_notes. rewrite skipn_map, firstn_map, map_map, length_map.
  rewrite (map_ext (fun x => project_public (strip_notes1 x)) project_public)
    by (intros e; apply project_public_strip).
  reflexivity.
Qed.

(** C10 (amended): no document of the public pending listing carries
    [adminNotes]; and when the [sort] parameter does not name
    [adminNotes], two stores that differ only in [adminNotes] values give
    the same listing. *)
Theorem pending_hides_adminNotes (c : Ctx) (r : Req) (st1 st2 : Store) :
  (forall d, d ∈ data (getPendingRequests c r st1).1 -> d !! "adminNotes" = None) /\
  ("adminNotes" ∉ (parse_sort (match query r !! "sort" with Some s => s | None => "-upvotes" end)).*1 ->
   strip_notes (requests st1) = strip_notes (requests st2) ->
   (getPendingRequests c r st1).1 = (getPendingRequests c r st2).1).
Proof.
  split.
  - intros d Hd. unfold getPendingRequests in Hd.
    destruct (pageNum_of (qparam r "page" (VNum 1))), (limitNum_of (qparam r "limit" (VNum 10)));
      simpl in Hd; try (inversion Hd; fail).
    apply list_elem_of_In, in_map_iff in Hd as [e [<- _]].
    unfold project_public. rewrite lookup_insert_ne by congruence. apply lookup_delete_eq.
  - intros Hn Heq. rewrite (pending_resp_strip c r st1 Hn), (pending_resp_strip c r st2 Hn), Heq.
    reflexivity.
Qed.

(** C10: witness, the default sort on the two stores above. *)
Lemma pending_hides_adminNotes_witness :
  (getPendingRequests ctx0 anon_req notes_store1).1 = (getPendingRequests ctx0 anon_req notes_store2).1.
Proof.
  apply (proj2 (pending_hides_adminNotes ctx0 anon_req notes_store1 notes_store2)).
  - vm_compute. intros H. inversion H; subst.
    match goal with H' : _ ∈ _ |- _ => inversion H' end.
  - exact (proj1 pending_order_reveals_notes).
Defined.

(* ------------------------------------------------------------------ *)
(** ** Lemmas on the embedding: sorting, collections, pagination *)

(* ---------- sorting ---------- *)

Fixpoint sorted_docs (ks : list SortKey) (l : list Doc) : Prop :=
  match l with
  | a :: ((b :: _) as t) => doc_cmp ks a b <> Gt /\ sorted_docs ks t
  | _ => True
  end.

Lemma str_cmp_antisym (a b : string) : str_cmp b a = CompOpp (str_cmp a b).
Proof.
  revert b. induction a as [|x a IH]; intros [|y b]; simpl; try reflexivity.
  rewrite (Nat.compare_antisym (nat_of_ascii x) (nat_of_ascii y)).
  destruct (Nat.compare (nat_of_ascii x) (nat_of_ascii y)); simpl; auto; apply IH.
Qed.

Lemma list_cmp_antisym (a b : list string) : list_cmp b a = CompOpp (list_cmp a b).
Proof.
  revert b. induction a as [|x a IH]; intros [|y b]; simpl; try reflexivity.
  rewrite (str_cmp_antisym x y).
  destruct (str_cmp x y); simpl; auto; apply IH.
Qed.

Lemma bson_cmp_antisym (a b : option Val) : bson_cmp b a = CompOpp (bson_cmp a b).
Proof.
  destruct a as [[]|], b as [[]|]; simpl;
    try reflexivity; try apply Z.compare_antisym;
    try apply str_cmp_antisym; try apply list_cmp_antisym.
  all: destruct b, b0; reflexivity.
Qed.

Lemma doc_cmp_antisym (ks : list SortKey) (a b : Doc) :
  doc_cmp ks b a = CompOpp (doc_cmp ks a b).
Proof.
  induction ks as [|[f desc] ks IH]; simpl; [reflexivity |].
  rewrite (bson_cmp_antisym (a !! f) (b !! f)).
  destruct (bson_cmp (a !! f) (b !! f)), desc; simpl; auto.
Qed.

Definition hd_ok (ks : list SortKey) (y : Doc) (l : list Doc) : Prop :=
  match l with z :: _ => doc_cmp ks y z <> Gt | [] => True end.

Lemma sorted_cons (ks : list SortKey) (y : Doc) (l : list Doc) :
  sorted_docs ks (y :: l) <-> hd_ok ks y l /\ sorted_docs ks l.
Proof. destruct l; simpl; tauto. Qed.

Lemma insert_by_hd (ks : list SortKey) (x : string * Doc) (l : Coll) (y : Doc) :
  hd_ok ks y (map snd l) -> doc_cmp ks y x.2 <> Gt ->
  hd_ok ks y (map snd (insert_by ks x l)).
Proof.
  destruct l as [|z t]; simpl; [auto |].
  destruct (doc_cmp ks x.2 z.2); simpl; auto.
Qed.

Lemma insert_by_sorted (ks : list SortKey) (x : string * Doc) (l : Coll) :
  sorted_docs ks (map snd l) -> sorted_docs ks (map snd (insert_by ks x l)).
Proof.
  induction l as [|y t IH]; simpl; [auto |].
  intros Hs. apply sorted_cons in Hs as [Hh Ht].
  destruct (doc_cmp ks x.2 y.2) eqn:Hc; cbn -[sorted_docs doc_cmp].
  - apply sorted_cons. split; [| exact (IH Ht)].
    apply insert_by_hd; [exact Hh |].
    rewrite doc_cmp_antisym, Hc. discriminate.
  - apply sorted_cons. split; [simpl; rewrite Hc; discriminate |].
    apply sorted_cons. split; [exact Hh | exact Ht].
  - apply sorted_cons. split; [| exact (IH Ht)].
    apply insert_by_hd; [exact Hh |].
    rewrite doc_cmp_antisym, Hc. discriminate.
Qed.

Lemma sort_by_sorted (ks : list SortKey) (l : Coll) :
  sorted_docs ks (map snd (sort_by ks l)).
Proof.
  unfold sort_by.
  assert (H : forall acc, sorted_docs ks (map snd acc) ->
            sorted_docs ks (map snd (foldl (fun acc x => insert_by ks x acc) acc l))).
  { induction l as [|x l IH]; simpl; intros acc Hacc; [exact Hacc |].
    apply IH. apply insert_by_sorted. exact Hacc. }
  apply H. simpl. exact I.
Qed.

Lemma insert_by_perm (ks : list SortKey) (x : string * Doc) (l : Coll) :
  insert_by ks x l ≡ₚ x :: l.
Proof.
  induction l as [|y t IH]; simpl; [reflexivity |].
  destruct (doc_cmp ks x.2 y.2); try reflexivity;
  rewrite IH; constructor.
Qed.

Lemma sort_by_perm (ks : list SortKey) (l : Coll) : sort_by ks l ≡ₚ l.
Proof.
  unfold sort_by.
  assert (H : forall acc, foldl (fun acc x => insert_by ks x acc) acc l ≡ₚ acc ++ l).
  { induction l as [|x l IH]; simpl; intros acc; [rewrite app_nil_r; reflexivity |].
    rewrite IH, insert_by_perm. simpl. apply Permutation_middle. }
  apply H.
Qed.

Lemma sorted_docs_take (ks : list SortKey) (n : nat) (l : list Doc) :
  sorted_docs ks l -> sorted_docs ks (take n l).
Proof.
  revert l. induction n as [|n IH]; intros [|a t]; simpl; auto.
  intros Hs. apply sorted_cons in Hs as [Hh Ht].
  apply sorted_cons. split; [| exact (IH t Ht)].
  destruct t, n; simpl in *; auto.
Qed.

Lemma sorted_docs_drop (ks : list SortKey) (n : nat) (l : list Doc) :
  sorted_docs ks l -> sorted_docs ks (drop n l).
Proof.
  revert l. induction n as [|n IH]; intros [|a t]; simpl; auto.
  intros Hs. apply sorted_cons in Hs as [_ Ht]. exact (IH t Ht).
Qed.

(** A projection that does not touch the sort keys keeps the order. *)
Lemma sorted_docs_map (ks : list SortKey) (f : Doc -> Doc) (l : list Doc) :
  (forall a b, doc_cmp ks (f a) (f b) = doc_cmp ks a b) ->
  sorted_docs ks l -> sorted_docs ks (map f l).
Proof.
  intros Hf. induction l as [|a t IH]; simpl; [auto |].
  intros Hs. apply sorted_cons in Hs as [Hh Ht].
  apply sorted_cons. split; [| exact (IH Ht)].
  destruct t; simpl in *; [exact I | rewrite Hf; exact Hh].
Qed.

Lemma doc_cmp_insert_other (ks : list SortKey) (k : string) (v w : Val) (a b : Doc) :
  Forall (fun kd => kd.1 <> k) ks ->
  doc_cmp ks (<[k := v]> a) (<[k := w]> b) = doc_cmp ks a b.
Proof.
  induction ks as [|[f desc] ks IH]; simpl; intros Hk; [reflexivity |].
  apply Forall_cons in Hk as [Hf Hk]. simpl in Hf.
  rewrite !lookup_insert_ne by congruence. rewrite IH by exact Hk. reflexivity.
Qed.

Lemma doc_cmp_delete_other (ks : list SortKey) (k : string) (a b : Doc) :
  Forall (fun kd => kd.1 <> k) ks ->
  doc_cmp ks (delete k a) (delete k b) = doc_cmp ks a b.
Proof.
  induction ks as [|[f desc] ks IH]; simpl; intros Hk; [reflexivity |].
  apply Forall_cons in Hk as [Hf Hk]. simpl in Hf.
  rewrite !lookup_delete_ne by congruence. rewrite IH by exact Hk. reflexivity.
Qed.

(* ---------- collections ---------- *)

Lemma findById_delete_same (id : string) (c : Coll) :
  NoDup (map fst c) -> findById id (deleteById id c) = None.
Proof.
  induction c as [|[i d] r IH]; simpl; intros Hnd; [reflexivity |].
  apply NoDup_cons in Hnd as [Hni Hnd].
  destruct (String.eqb_spec i id) as [->|Hne]; simpl.
  - clear IH. induction r as [|[j e] r IHr]; simpl; [reflexivity |].
    destruct (String.eqb_spec j id) as [->|]; [exfalso; apply Hni; left |].
    apply IHr. intros Hin. apply Hni. right. exact Hin.
    apply NoDup_cons in Hnd as [_ Hnd]. exact Hnd.
  - destruct (String.eqb_spec i id); [contradiction |]. exact (IH Hnd).
Qed.


Lemma findById_app_r (id : string) (c : Coll) (i : string) (d : Doc) :
  findById id (c ++ [(i, d)]) =
  match findById id c with Some x => Some x | None => if String.eqb i id then Some d else None end.
Proof.
  induction c as [|[j e] r IH]; simpl.
  - destruct (String.eqb i id); reflexivity.
  - destruct (String.eqb j id); [reflexivity | exact IH].
Qed.

Lemma findById_filter_key (P : string -> Prop) `{!∀ x, Decision (P x)} (id : string) (c : Coll) :
  findById id (filter (fun e => P e.1) c) = if decide (P id) then findById id c else None.
Proof.
  induction c as [|[i d] r IH]; simpl.
  - destruct (decide (P id)); reflexivity.
  - rewrite filter_cons. simpl.
    destruct (decide (P i)) as [Hi|Hi]; simpl.
    + destruct (String.eqb_spec i id) as [->|Hne].
      * destruct (decide (P id)); [reflexivity | contradiction].
      * exact IH.
    + destruct (String.eqb_spec i id) as [->|Hne].
      * rewrite IH. destruct (decide (P id)); [contradiction | reflexivity].
      * exact IH.
Qed.

Lemma findById_replace_same (id : string) (d' : Doc) (c : Coll) (d : Doc) :
  findById id c = Some d -> findById id (replaceById id d' c) = Some d'.
Proof. intros H. rewrite findById_replace, String.eqb_refl, H. reflexivity. Qed.

Lemma findById_replace_other (id id' : string) (d' : Doc) (c : Coll) :
  id <> id' -> findById id' (replaceById id d' c) = findById id' c.
Proof.
  intros Hne. rewrite findById_replace.
  destruct (String.eqb_spec id id'); [contradiction | reflexivity].
Qed.

(* ---------- pagination ---------- *)



(** [pageNum < Math.ceil(total / limitNum)] holds exactly when documents
    remain after the page. *)
Lemma lt_ceil_iff (p l t : Z) :
  0 < l -> 0 <= t -> (p <? (t + l - 1) / l) = true <-> p * l < t.
Proof.
  intros Hl Ht. rewrite Z.ltb_lt.
  pose proof (Z.div_mod (t + l - 1) l ltac:(lia)) as Hdm.
  pose proof (Z.mod_pos_bound (t + l - 1) l Hl) as Hb.
  split; intros H; nia.
Qed.


(* ------------------------------------------------------------------ *)
(** ** Whitespace and the email pattern *)




















(* ================================================================== *)
(** * Further properties of the handlers *)

Lemma isAdminEmail_falsy (e : Env) (o : option string) :
  truthy_str o = false -> isAdminEmail e o = false.
Proof. intros H. unfold isAdminEmail. rewrite H. reflexivity. Qed.

Lemma isAdminEmail_unconfigured (e : Env) (o : option string) :
  adminEnv e = EmptyString -> isAdminEmail e o = false.
Proof.
  intros H. unfold isAdminEmail, getAdminEmails. rewrite H.
  destruct (truthy_str o), o; reflexivity.
Qed.

(** X1: [requireAdmin] calls [next()] exactly when the inline admin check
    of the handlers holds; it answers 401 exactly when there is no user or
    the user's email is missing or empty, and 403 otherwise; with no admin
    list configured it lets nobody through. *)
Theorem requireAdmin_outcomes (e : Env) (r : Req) :
  (requireAdmin e r = MwNext <-> admin_ok e r = true) /\
  (requireAdmin e r = Mw401 <->
     match user r with Some u => truthy_str (uemail u) = false | None => True end) /\
  (adminEnv e = EmptyString -> requireAdmin e r <> MwNext).
Proof.
  assert (Hiff : requireAdmin e r = MwNext <-> admin_ok e r = true).
  { unfold requireAdmin, admin_ok. destruct (user r) as [u|]; [| split; discriminate].
    destruct (truthy_str (uemail u)) eqn:Ht; simpl.
    - destruct (isAdminEmail e (uemail u)); simpl; split; intros; congruence.
    - rewrite isAdminEmail_falsy by exact Ht. split; discriminate. }
  split; [exact Hiff |]. split.
  - unfold requireAdmin. destruct (user r) as [u|]; [| tauto].
    destruct (truthy_str (uemail u)) eqn:Ht; simpl; [| tauto].
    destruct (isAdminEmail e (uemail u)); simpl; split; intros; congruence.
  - intros Hempty Hn. apply Hiff in Hn. unfold admin_ok in Hn.
    destruct (user r); [| discriminate].
    rewrite isAdminEmail_unconfigured in Hn by exact Hempty. discriminate.
Qed.

Lemma requireAdmin_outcomes_witness :
  adminEnv (mkEnv None None None) = EmptyString /\
  requireAdmin (mkEnv None None None) (mkReq (Some (mkUser (Some "a@b.com"))) ∅ ∅ ∅) <> MwNext.
Proof.
  split; [reflexivity |].
  exact (proj2 (proj2 (requireAdmin_outcomes (mkEnv None None None)
           (mkReq (Some (mkUser (Some "a@b.com"))) ∅ ∅ ∅))) eq_refl).
Defined.

(** X2: [attachAdminInfo] sets [req.isAdmin] exactly when [requireAdmin]
    would let the request through, and sets [req.adminEmail] to an email
    only then, to the caller's own email. *)
Theorem attachAdminInfo_agrees (e : Env) (r : Req) :
  ((attachAdminInfo e r).1 = true <-> requireAdmin e r = MwNext) /\
  (forall a, (attachAdminInfo e r).2 = Some a <->
     requireAdmin e r = MwNext /\ user r = Some (mkUser (Some a))).
Proof.
  unfold attachAdminInfo, requireAdmin.
  destruct (user r) as [[em]|]; simpl.
  - destruct (truthy_str em) eqn:Ht; simpl.
    + destruct (isAdminEmail e em); simpl.
      * split; [split; reflexivity |]. intros a. split.
        -- intros ->. split; reflexivity.
        -- intros [_ H]. congruence.
      * split; [split; discriminate |]. intros a. split; [discriminate | intros [H _]; discriminate].
    + split; [split; discriminate |]. intros a. split; [discriminate | intros [H _]; discriminate].
  - split; [split; discriminate |]. intros a. split; [discriminate | intros [H _]; discriminate].
Qed.

Lemma attachAdminInfo_agrees_witness :
  (attachAdminInfo env_admin (mkReq (Some (mkUser (Some "admin@easyreads.com"))) ∅ ∅ ∅)).2
    = Some "admin@easyreads.com".
Proof.
  apply (proj2 (attachAdminInfo_agrees env_admin
           (mkReq (Some (mkUser (Some "admin@easyreads.com"))) ∅ ∅ ∅)) "admin@easyreads.com").
  split; reflexivity.
Defined.

Lemma views_next_num (sn : string -> jsnum) (dt : Z -> string) (n : Z) :
  views_next sn dt (Some (VNum n)) = Some (VNum (n + 1)).
Proof. unfold views_next. destruct n; reflexivity. Qed.

Lemma getBookById_step (sn : string -> jsnum) (dt : Z -> string)
    (c : Ctx) (r : Req) (st : Store) (d : Doc) (n : Z) :
  isObjectId (param r "id") = true ->
  findById (param r "id") (books st) = Some d ->
  d !! "views" = Some (VNum n) ->
  getBookById sn dt c r st =
    (mkResp 200 [select_no_v (param r "id", <["views" := VNum (n + 1)]> d)] None,
     mkStore (replaceById (param r "id") (<["views" := VNum (n + 1)]> d) (books st))
             (requests st)).
Proof.
  intros Hid Hd Hv. unfold getBookById. rewrite Hid, Hd. simpl.
  rewrite Hv, views_next_num. reflexivity.
Qed.


Definition book_req (id : string) : Req := mkReq None {[ "id" := id ]} ∅ ∅.

Definition bid1 : string := "650000000000000000000011".

Definition book_doc : Doc :=
  <["name" := VStr "Dune"]> (<["author" := VStr "Frank Herbert"]> ∅).

Definition bstore : Store := mkStore [(bid1, book_doc)] [].


(** X4: k successive [GET /api/books/:id] calls on a book whose [views]
    is the number n, by any callers, leave it with [views] n + k and every
    other field as it was. *)
Theorem getBookById_views_add (sn : string -> jsnum) (dt : Z -> string)
    (calls : list (Ctx * Req)) (st : Store) (id : string) (d : Doc) (n : Z) :
  isObjectId id = true ->
  Forall (fun cr => param cr.2 "id" = id) calls ->
  findById id (books st) = Some d -> d !! "views" = Some (VNum n) ->
  findById id (books (view_all sn dt calls st))
    = Some (<["views" := VNum (n + Z.of_nat (List.length calls))]> d).
Proof.
  intros Hid Hcalls. revert st d n.
  induction Hcalls as [|[c r] calls Hr Hcalls IH]; intros st d n Hd Hv; simpl in *.
  - rewrite Z.add_0_r, insert_id by exact Hv. exact Hd.
  - subst id. rewrite (getBookById_step sn dt c r st d n Hid Hd Hv). simpl.
    rewrite (IH _ (<["views" := VNum (n + 1)]> d) (n + 1)).
    + rewrite insert_insert_eq. do 3 f_equal. lia.
    + simpl. exact (findById_replace_same _ _ _ _ Hd).
    + apply lookup_insert_eq.
Qed.

Lemma getBookById_views_add_witness :
  findById bid1 (books (view_all (fun _ => None) (fun _ => EmptyString)
      [(ctx0, book_req bid1); (ctx0, book_req bid1); (ctx0, book_req bid1)]
      (mkStore [(bid1, <["views" := VNum 5]> book_doc)] [])))
  = Some (<["views" := VNum (5 + 3)]> (<["views" := VNum 5]> book_doc)).
Proof.
  apply (getBookById_views_add (fun _ => None) (fun _ => EmptyString)
           [(ctx0, book_req bid1); (ctx0, book_req bid1); (ctx0, book_req bid1)]
           (mkStore [(bid1, <["views" := VNum 5]> book_doc)] []) bid1
           (<["views" := VNum 5]> book_doc) 5).
  - reflexivity.
  - repeat constructor.
  - reflexivity.
  - reflexivity.
Defined.






(* ------------------------------------------------------------------ *)

Lemma patch_fold_none (u0 acc : Doc) (fs : list string) (k : string) :
  acc !! k = None -> (k ∉ fs \/ u0 !! k = None) ->
  foldl (fun acc f => match u0 !! f with Some v => <[f := v]> acc | None => acc end) acc fs !! k
  = None.
Proof.
  revert acc. induction fs as [|f fs IH]; intros acc Hacc Hk; simpl; [exact Hacc |].
  apply IH.
  - destruct (u0 !! f) as [v|] eqn:Hf; [| exact Hacc].
    destruct (String.eq_dec f k) as [->|Hne].
    + destruct Hk as [Hk|Hk]; [exfalso; apply Hk; left | congruence].
    + rewrite lookup_insert_ne by exact Hne. exact Hacc.
  - destruct Hk as [Hk|Hk]; [left; intros Hin; apply Hk; right; exact Hin | right; exact Hk].
Qed.

Lemma patch_fold_all_none (u0 acc : Doc) (fs : list string) :
  Forall (fun f => u0 !! f = None) fs ->
  foldl (fun acc f => match u0 !! f with Some v => <[f := v]> acc | None => acc end) acc fs
  = acc.
Proof.
  revert acc. induction fs as [|f fs IH]; intros acc Hall; simpl; [reflexivity |].
  apply Forall_cons in Hall as [Hf Hall]. rewrite Hf. exact (IH acc Hall).
Qed.

Lemma trim_field_none (k k' : string) (u u' : Doc) :
  trim_field k' u = Some u' -> u !! k = None -> u' !! k = None.
Proof.
  unfold trim_field. intros Ht Hk.
  destruct (String.eq_dec k' k) as [->|Hne].
  - rewrite Hk in Ht. injection Ht as <-. exact Hk.
  - destruct (u !! k') as [[]|]; try destruct (truthy _);
      try discriminate; injection Ht as <-;
      rewrite ?lookup_insert_ne by exact Hne; exact Hk.
Qed.

Lemma trim_field_other (k k' : string) (u u' : Doc) :
  trim_field k' u = Some u' -> k' <> k -> u' !! k = u !! k.
Proof.
  unfold trim_field. intros Ht Hne.
  destruct (u !! k') as [[]|]; try destruct (truthy _);
    try discriminate; injection Ht as <-;
    rewrite ?lookup_insert_ne by exact Hne; reflexivity.
Qed.

Lemma trim_fields_stuck (ks : list string) :
  foldl (fun acc k => match acc with Some u' => trim_field k u' | None => None end) None ks
  = None.
Proof. induction ks; simpl; auto. Qed.

Lemma trim_fields_none (ks : list string) (k : string) (u u' : Doc) :
  trim_fields ks u = Some u' -> u !! k = None -> u' !! k = None.
Proof.
  unfold trim_fields. revert u. induction ks as [|k' ks IH]; intros u Ht Hk; simpl in *.
  - injection Ht as <-. exact Hk.
  - destruct (trim_field k' u) as [u1|] eqn:H1.
    + exact (IH u1 Ht (trim_field_none k k' u u1 H1 Hk)).
    + rewrite trim_fields_stuck in Ht. discriminate.
Qed.

Lemma trim_fields_other (ks : list string) (k : string) (u u' : Doc) :
  trim_fields ks u = Some u' -> k ∉ ks -> u' !! k = u !! k.
Proof.
  unfold trim_fields. revert u. induction ks as [|k' ks IH]; intros u Ht Hk; simpl in *.
  - injection Ht as <-. reflexivity.
  - destruct (trim_field k' u) as [u1|] eqn:H1.
    + rewrite (IH u1 Ht) by (intros Hin; apply Hk; right; exact Hin).
      apply (trim_field_other k k' u u1 H1). intros ->. apply Hk. left.
    + rewrite trim_fields_stuck in Ht. discriminate.
Qed.

(** X7: [patchBook] changes no field that is not among its allowed fields
    or that the body does not send, whatever the caller and the outcome;
    an admin's patch of a well-formed id whose body sends no allowed field
    is answered 400 and writes nothing. *)
Theorem patchBook_only_sent_allowed (c : Ctx) (r : Req) (st : Store) :
  (forall k, (k ∉ allowedFields \/ body r !! k = None) ->
     forall id, option_map (fun d => d !! k) (findById id (books (patchBook c r st).2))
              = option_map (fun d => d !! k) (findById id (books st))) /\
  (admin_ok (env c) r = true -> isObjectId (param r "id") = true ->
     Forall (fun f => body r !! f = None) allowedFields ->
     patchBook c r st = (status_only 400, st)).
Proof.
  split.
  - intros k Hk id. unfold patchBook.
    destruct (admin_ok (env c) r); cbn [negb]; [| reflexivity].
    destruct (isObjectId (param r "id")); cbn [negb]; [| reflexivity].
    match goal with |- context [bool_decide (?u = ∅)] =>
      assert (Hu : u !! k = None); [| destruct (bool_decide (u = ∅)); [reflexivity |]] end.
    { apply patch_fold_none; [apply lookup_empty |].
      destruct Hk as [Hk|Hk]; [left; exact Hk | right].
      apply lookup_delete_None. right. apply lookup_delete_None. right. exact Hk. }
    match goal with |- context [trim_fields ?ks ?u] =>
      pose proof (trim_fields_none ks k u) as Hu1;
      destruct (trim_fields ks u) as [u1|] eqn:Ht; cbn [or_throw]; [| reflexivity];
      specialize (Hu1 u1 eq_refl Hu) end.
    destruct (findById (param r "id") (books st)) as [d|] eqn:Hd; cbn [snd books];
      [| reflexivity].
    rewrite findById_replace.
    destruct (String.eqb_spec (param r "id") id) as [<-|Hne]; [| reflexivity].
    rewrite Hd. simpl. f_equal. unfold set_fields. apply lookup_union_r. exact Hu1.
  - intros Hadm Hid Hnone. unfold patchBook. rewrite Hadm, Hid. cbn [negb].
    rewrite patch_fold_all_none.
    + rewrite bool_decide_eq_true_2 by reflexivity. reflexivity.
    + eapply Forall_impl; [exact Hnone |]. intros f Hf. simpl.
      apply lookup_delete_None. right. apply lookup_delete_None. right. exact Hf.
Qed.

Lemma patchBook_only_sent_allowed_witness :
  patchBook ctx0 (admin_req bid1 {[ "title" := VStr "x" ]}) bstore = (status_only 400, bstore).
Proof.
  apply (proj2 (patchBook_only_sent_allowed ctx0 (admin_req bid1 {[ "title" := VStr "x" ]}) bstore)).
  - reflexivity.
  - reflexivity.
  - vm_compute. repeat constructor.
Defined.

Lemma conv_lookup_ne (k k' : string) (f : Val -> Val) (u : Doc) :
  k <> k' ->
  (match u !! k with Some v => if truthy v then <[k := f v]> u else u | None => u end) !! k'
  = u !! k'.
Proof.
  intros Hne. destruct (u !! k) as [v|]; [| reflexivity].
  destruct (truthy v); [apply lookup_insert_ne; exact Hne | reflexivity].
Qed.

Lemma conv_pages_lookup_ne (k' : string) (u : Doc) :
  "pages" <> k' ->
  (match u !! "pages" with
   | Some v => if truthy v then <["pages" := num_val (parseInt v)]> u else u
   | None => u end) !! k'
  = u !! k'.
Proof. intros Hne. apply (conv_lookup_ne "pages" k' (fun v => num_val (parseInt v))). exact Hne. Qed.

(** X8: when [updateBook] succeeds on a body that sends [copies], the
    saved book has [copies] set to [parseInt(copies)] and [availability]
    set to whether that number is positive ([false] for [NaN]), and keeps
    its stored [__v] whatever the body sends. *)
Theorem updateBook_copies_availability (pf : Val -> Val) (c : Ctx) (r : Req) (st : Store)
    (v : Val) (d : Doc) :
  code (updateBook pf c r st).1 = 200 -> body r !! "copies" = Some v ->
  findById (param r "id") (books st) = Some d ->
  exists d', findById (param r "id") (books (updateBook pf c r st).2) = Some d' /\
    d' !! "copies" = Some (num_val (parseInt v)) /\
    d' !! "availability" = Some (VBool (match parseInt v with Some z => 0 <? z | None => false end)) /\
    d' !! "__v" = d !! "__v".
Proof.
  intros Hcode Hv Hd. unfold updateBook in *.
  destruct (admin_ok (env c) r); simpl in *; [| discriminate].
  destruct (isObjectId (param r "id")); simpl in *; [| discriminate].
  match goal with |- context [trim_fields ?ks ?u] =>
    destruct (trim_fields ks u) as [u1|] eqn:Ht; simpl in *; [| discriminate];
    assert (Hc1 : u1 !! "copies" = Some v);
    [ rewrite (trim_fields_other ks "copies" u u1 Ht) by (compute; intros H;
        repeat (apply elem_of_cons in H as [H|H]; [discriminate H |]);
        apply elem_of_nil in H; exact H);
      rewrite !lookup_delete_ne by discriminate; exact Hv |];
    assert (Hv1 : u1 !! "__v" = None);
    [ apply (trim_fields_none ks "__v" u u1 Ht); apply lookup_delete_eq |] end.
  rewrite Hd. simpl. rewrite findById_replace, String.eqb_refl, Hd. simpl.
  rewrite (conv_lookup_ne "discount" "copies" pf), (conv_lookup_ne "price" "copies" pf),
    conv_pages_lookup_ne by discriminate.
  rewrite Hc1.
  eexists. split; [reflexivity |]. unfold set_fields. split; [| split].
  - apply lookup_union_Some_l. rewrite lookup_insert_ne by discriminate.
    apply lookup_insert_eq.
  - apply lookup_union_Some_l. apply lookup_insert_eq.
  - apply lookup_union_r. rewrite !lookup_insert_ne by discriminate.
    rewrite (conv_lookup_ne "discount" "__v" pf), (conv_lookup_ne "price" "__v" pf),
      conv_pages_lookup_ne by discriminate.
    exact Hv1.
Qed.

Lemma updateBook_copies_availability_witness :
  exists d', findById bid1 (books (updateBook (fun x => x) ctx0
      (admin_req bid1 {[ "copies" := VStr "3" ]}) bstore).2) = Some d' /\
    d' !! "copies" = Some (num_val (parseInt (VStr "3"))) /\
    d' !! "availability" = Some (VBool (match parseInt (VStr "3") with
                                        | Some z => 0 <? z | None => false end)) /\
    d' !! "__v" = book_doc !! "__v".
Proof.
  apply (updateBook_copies_availability (fun x => x) ctx0
           (admin_req bid1 {[ "copies" := VStr "3" ]}) bstore (VStr "3") book_doc).
  - vm_compute. reflexivity.
  - reflexivity.
  - reflexivity.
Defined.






Lemma list_page_data_in (p l : jsnum) (ks : list SortKey) (proj : string * Doc -> Doc)
    (m : Coll) (d : Doc) :
  d ∈ data (list_page p l ks proj m).1 -> exists e, e ∈ m /\ d = proj e.
Proof.
  unfold list_page. destruct p as [p|], l as [l|]; simpl;
    try (intros H; apply elem_of_nil in H; contradiction).
  intros H. apply list_elem_of_In, in_map_iff in H as [e [<- He]].
  exists e. split; [| reflexivity].
  apply list_elem_of_In in He.
  apply (subseteq_take _ _) in He. apply (subseteq_drop _ _) in He.
  rewrite (sort_by_perm ks m) in He. exact He.
Qed.

Lemma sorted_docs_map_pairs (ks : list SortKey) (g : string * Doc -> Doc) (l : Coll) :
  (forall a b, doc_cmp ks (g a) (g b) = doc_cmp ks a.2 b.2) ->
  sorted_docs ks (map snd l) -> sorted_docs ks (map g l).
Proof.
  intros Hg. induction l as [|a t IH]; simpl; [auto |].
  intros Hs. apply sorted_cons in Hs as [Hh Ht].
  apply sorted_cons. split; [| exact (IH Ht)].
  destruct t; simpl in *; [exact I | rewrite Hg; exact Hh].
Qed.

Lemma with_id_cmp (ks : list SortKey) (a b : string * Doc) :
  Forall (fun kd => kd.1 <> "_id") ks ->
  doc_cmp ks (with_id a) (with_id b) = doc_cmp ks a.2 b.2.
Proof. intros Hk. unfold with_id. apply doc_cmp_insert_other. exact Hk. Qed.

Lemma filter_true_id (l : Coll) : filter (fun _ : string * Doc => true = true) l = l.
Proof.
  induction l as [|x l IH]; [reflexivity |].
  rewrite filter_cons_True by reflexivity. rewrite IH. reflexivity.
Qed.

(** X10: the controller's admin reads ([getBookRequests],
    [getBookRequestById], [getRequestStats], [getPopularRequests]) answer
    403 with no data to a caller who is not an admin, while the router's
    [GET /api/book-requests] answers any caller, when no status is asked
    for, with every stored request, [adminNotes] included, newest
    [requestedAt] first. *)
Theorem request_reads_exposure (gs : Coll -> option Doc)
    (pr : jsnum -> Coll -> option (list Doc)) (c : Ctx) (r r' : Req) (st : Store) :
  (admin_ok (env c) r = false ->
     getBookRequests c r st = (status_only 403, None) /\
     getBookRequestById c r st = status_only 403 /\
     getRequestStats gs c r st = status_only 403 /\
     getPopularRequests pr c r st = status_only 403) /\
  (truthy_q (query r' !! "status") = None ->
     data (router_get_all r' st) ≡ₚ map with_id (requests st) /\
     sorted_docs [("requestedAt", true)] (data (router_get_all r' st))).
Proof.
  split.
  - intros H. unfold getBookRequests, getBookRequestById, getRequestStats, getPopularRequests.
    rewrite H. repeat split.
  - intros Hq. unfold router_get_all. rewrite Hq. simpl. rewrite filter_true_id. split.
    + apply Permutation_map. apply sort_by_perm.
    + apply sorted_docs_map_pairs; [| apply sort_by_sorted].
      intros a b. apply with_id_cmp. repeat constructor. discriminate.
Qed.

Lemma request_reads_exposure_witness :
  getBookRequests ctx0 (list_req ∅) store1 = (status_only 403, None) /\
  getBookRequestById ctx0 (list_req ∅) store1 = status_only 403 /\
  getRequestStats (fun _ => None) ctx0 (list_req ∅) store1 = status_only 403 /\
  getPopularRequests (fun _ _ => None) ctx0 (list_req ∅) store1 = status_only 403.
Proof.
  exact (proj1 (request_reads_exposure (fun _ => None) (fun _ _ => None) ctx0
           (list_req ∅) (list_req ∅) store1) eq_refl).
Defined.

(** X11: once the router's [DELETE /api/book-requests/:id] has run for an
    id that casts (the collection's ids being distinct), its
    [GET /api/book-requests/:id] answers 404 for that id. *)
Theorem router_delete_then_get (castOid : string -> bool) (c : Ctx) (r r' : Req) (st : Store) :
  castOid (param r "id") = true -> NoDup (map fst (requests st)) ->
  param r' "id" = param r "id" ->
  router_get_id castOid r' (router_delete c r st).2 = status_only 404.
Proof.
  intros Hc Hnd Hr'. unfold router_get_id, router_delete. rewrite Hr', Hc. simpl.
  destruct (findById (param r "id") (requests st)) as [d|] eqn:Hd; simpl.
  - rewrite findById_delete_same by exact Hnd. reflexivity.
  - rewrite Hd. reflexivity.
Qed.

Lemma router_delete_then_get_witness :
  router_get_id (fun _ => true) (book_req rid1) (router_delete ctx0 (book_req rid1) store1).2
    = status_only 404.
Proof.
  apply (router_delete_then_get (fun _ => true) ctx0 (book_req rid1) (book_req rid1) store1).
  - reflexivity.
  - vm_compute. constructor; [set_solver | constructor].
  - reflexivity.
Defined.

(** X12: [getUserRequests] answers 401 when the caller has no email (or an
    empty one); otherwise every request it returns has a [requesterEmail]
    equal to (or, for an array, holding) the lowercased email of the
    caller, and comes without [__v]. *)
Theorem getUserRequests_own (c : Ctx) (r : Req) (st : Store) :
  (match user r with Some u => truthy_str (uemail u) = false | None => True end ->
     getUserRequests c r st = status_only 401) /\
  (forall e d, user r = Some (mkUser (Some e)) -> d ∈ data (getUserRequests c r st) ->
     mongo_eq (d !! "requesterEmail") (toLowerCase e) = true /\ d !! "__v" = None).
Proof.
  unfold getUserRequests. split.
  - destruct (user r) as [[[[|ch s]|]]|]; simpl; auto; discriminate.
  - intros e d Hu Hin. rewrite Hu in Hin. destruct e as [|ch s].
    + apply elem_of_nil in Hin. contradiction.
    + apply list_page_data_in in Hin as [[i d0] [Hm ->]].
      apply list_elem_of_filter in Hm as [Hm _]. simpl in Hm.
      unfold select_no_v, with_id. simpl. split.
      * rewrite lookup_insert_ne by discriminate.
        rewrite lookup_delete_ne by discriminate. exact Hm.
      * rewrite lookup_insert_ne by discriminate. apply lookup_delete_eq.
Qed.

Lemma getUserRequests_own_witness :
  getUserRequests ctx0 (mkReq (Some (mkUser None)) ∅ ∅ ∅) store1 = status_only 401.
Proof.
  exact (proj1 (getUserRequests_own ctx0 (mkReq (Some (mkUser None)) ∅ ∅ ∅) store1) eq_refl).
Defined.













Lemma limitNum_range (v : Val) (l : Z) : limitNum_of v = Some l -> 1 <= l <= 100.
Proof.
  unfold limitNum_of, js_min, js_max. destruct (parseInt v); simpl; intros H;
    inversion H; lia.
Qed.





Lemma list_page_flags_spec (pn ln : jsnum) (ks : list SortKey) (proj : string * Doc -> Doc)
    (m : Coll) (fl : PageFlags) :
  (forall l, ln = Some l -> 1 <= l) ->
  (list_page pn ln ks proj m).2 = Some fl ->
  exists p l, pn = Some p /\ ln = Some l /\
    pagination (list_page pn ln ks proj m).1
      = Some (mkPagination pn ln (Z.of_nat (List.length m)) (js_ceil_div (Z.of_nat (List.length m)) ln)) /\
    (hasNext fl = true <-> p * l < Z.of_nat (List.length m)) /\
    (hasPrev fl = true <-> 1 < p).
Proof.
  intros Hl. unfold list_page. destruct pn as [p|], ln as [l|]; simpl; try discriminate.
  intros H. injection H as <-. exists p, l.
  specialize (Hl l eq_refl).
  split; [reflexivity |]. split; [reflexivity |]. split; [reflexivity |]. simpl.
  unfold js_ceil_div. rewrite (proj2 (Z.ltb_lt 0 l)) by lia. split.
  - apply lt_ceil_iff; lia.
  - apply Z.ltb_lt.
Qed.

Definition flags_agree (r : Req) (resp : Resp) (fl : PageFlags) : Prop :=
  exists p l t, pageNum_of (qparam r "page" (VNum 1)) = Some p /\
    limitNum_of (qparam r "limit" (VNum 10)) = Some l /\
    option_map pg_total (pagination resp) = Some t /\
    (hasNext fl = true <-> p * l < t) /\ (hasPrev fl = true <-> 1 < p).

Lemma list_page_flags_agree (r : Req) (ks : list SortKey) (proj : string * Doc -> Doc)
    (m : Coll) (fl : PageFlags) :
  (list_page (pageNum_of (qparam r "page" (VNum 1))) (limitNum_of (qparam r "limit" (VNum 10)))
     ks proj m).2 = Some fl ->
  flags_agree r (list_page (pageNum_of (qparam r "page" (VNum 1)))
                   (limitNum_of (qparam r "limit" (VNum 10))) ks proj m).1 fl.
Proof.
  intros H.
  assert (Hl : forall l, limitNum_of (qparam r "limit" (VNum 10)) = Some l -> 1 <= l).
  { intros l Hl. apply limitNum_range in Hl. lia. }
  destruct (list_page_flags_spec _ _ _ _ _ fl Hl H) as (p & l & Hp & Hl' & Hpg & Hn & Hv).
  exists p, l, (Z.of_nat (List.length m)). rewrite Hpg. auto.
Qed.

(** X16: when [getAllBooks] or [getBookRequests] answers with a page,
    its [hasNext] flag holds exactly when documents remain after the page
    ([pageNum * limitNum < total], with [total] the count reported in the
    pagination), and [hasPrev] exactly when the page is after the first. *)
Theorem list_flags (rok : string -> bool) (rt : string -> string -> bool)
    (c : Ctx) (r : Req) (st : Store) :
  (forall fl, (getAllBooks rok rt c r st).2 = Some fl ->
     flags_agree r (getAllBooks rok rt c r st).1 fl) /\
  (forall fl, (getBookRequests c r st).2 = Some fl ->
     flags_agree r (getBookRequests c r st).1 fl).
Proof.
  split; intros fl H.
  - unfold getAllBooks in *.
    destruct (match truthy_q (query r !! "search") with
              | Some s => negb (rok s) | None => false end); [discriminate |].
    apply list_page_flags_agree. exact H.
  - unfold getBookRequests in *.
    destruct (negb (admin_ok (env c) r)); [discriminate |].
    apply list_page_flags_agree. exact H.
Qed.

Lemma list_flags_witness :
  (getAllBooks (fun _ => true) (fun _ _ => true) ctx0
     (list_req {[ "page" := "2"; "limit" := "1" ]}) bstore).2 = Some (mkPageFlags false true) /\
  flags_agree (list_req {[ "page" := "2"; "limit" := "1" ]})
    (getAllBooks (fun _ => true) (fun _ _ => true) ctx0
       (list_req {[ "page" := "2"; "limit" := "1" ]}) bstore).1 (mkPageFlags false true).
Proof.
  assert (H : (getAllBooks (fun _ => true) (fun _ _ => true) ctx0
     (list_req {[ "page" := "2"; "limit" := "1" ]}) bstore).2 = Some (mkPageFlags false true))
    by (vm_compute; reflexivity).
  split; [exact H |].
  exact (proj1 (list_flags (fun _ => true) (fun _ _ => true) ctx0
           (list_req {[ "page" := "2"; "limit" := "1" ]}) bstore) _ H).
Defined.

Lemma select_no_v_cmp (ks : list SortKey) (a b : string * Doc) :
  Forall (fun kd => kd.1 <> "_id" /\ kd.1 <> "__v") ks ->
  doc_cmp ks (select_no_v a) (select_no_v b) = doc_cmp ks a.2 b.2.
Proof.
  intros Hk. unfold select_no_v, with_id. simpl.
  rewrite doc_cmp_insert_other by (eapply Forall_impl; [exact Hk | intros kd []; auto]).
  apply doc_cmp_delete_other. eapply Forall_impl; [exact Hk | intros kd []; auto].
Qed.

Lemma sorted_page (ks : list SortKey) (proj : string * Doc -> Doc) (n k : nat) (m : Coll) :
  (forall a b, doc_cmp ks (proj a) (proj b) = doc_cmp ks a.2 b.2) ->
  sorted_docs ks (map proj (take n (drop k (sort_by ks m)))).
Proof.
  intros Hp. apply sorted_docs_map_pairs; [exact Hp |].
  rewrite <- firstn_map, <- skipn_map. apply sorted_docs_take, sorted_docs_drop, sort_by_sorted.
Qed.

Lemma list_page_sorted (p l : jsnum) (ks : list SortKey) (proj : string * Doc -> Doc) (m : Coll) :
  (forall a b, doc_cmp ks (proj a) (proj b) = doc_cmp ks a.2 b.2) ->
  sorted_docs ks (data (list_page p l ks proj m).1).
Proof.
  intros Hp. unfold list_page. destruct p, l; simpl; try exact I.
  apply sorted_page. exact Hp.
Qed.

Lemma select_no_v_lookup (e : string * Doc) (k : string) :
  k <> "_id" -> k <> "__v" -> select_no_v e !! k = e.2 !! k.
Proof.
  intros H1 H2. unfold select_no_v, with_id. simpl.
  rewrite lookup_insert_ne by congruence. apply lookup_delete_ne. congruence.
Qed.

(** X17: [getTrendingBooks] returns min(limit, number of books) books, in
    the order of its keys (rating, then downloads, then views, then
    [createdAt], each highest first), each a stored book without [__v]. *)
Theorem getTrendingBooks_top (c : Ctx) (r : Req) (st : Store) (l : Z) :
  limitNum_of (qparam r "limit" (VNum 10)) = Some l ->
  List.length (data (getTrendingBooks c r st)) = Nat.min (Z.to_nat l) (List.length (books st)) /\
  sorted_docs [("rating", true); ("downloads", true); ("views", true); ("createdAt", true)]
              (data (getTrendingBooks c r st)) /\
  (forall d, d ∈ data (getTrendingBooks c r st) ->
     exists e, e ∈ books st /\ d = select_no_v e).
Proof.
  intros Hl. unfold getTrendingBooks, top_list. rewrite Hl. simpl. split; [| split].
  - rewrite length_map, length_take, (Permutation_length (sort_by_perm _ _)). reflexivity.
  - rewrite <- (drop_0 (sort_by _ (books st))). apply sorted_page.
    intros a b. apply select_no_v_cmp. repeat constructor; discriminate.
  - intros d Hd. apply list_elem_of_In, in_map_iff in Hd as [e [<- He]].
    exists e. split; [| reflexivity]. apply list_elem_of_In in He.
    apply (subseteq_take _ _) in He. rewrite (sort_by_perm _ _) in He. exact He.
Qed.

Lemma getTrendingBooks_top_witness :
  List.length (data (getTrendingBooks ctx0 (list_req ∅) bstore))
    = Nat.min (Z.to_nat 10) (List.length (books bstore)).
Proof.
  exact (proj1 (getTrendingBooks_top ctx0 (list_req ∅) bstore 10 eq_refl)).
Defined.

(** X18: [getBooksByGenre] answers 400 when the genre is missing or blank;
    every book it returns has the genre given in the path, untrimmed, and
    comes without [__v]; the books come highest rating first. *)
Theorem getBooksByGenre_spec (c : Ctx) (r : Req) (st : Store) :
  (match params r !! "genre" with Some g => trim g = EmptyString | None => True end ->
     getBooksByGenre c r st = status_only 400) /\
  (forall g d, params r !! "genre" = Some g -> d ∈ data (getBooksByGenre c r st) ->
     mongo_eq (d !! "genre") g = true /\ d !! "__v" = None) /\
  sorted_docs [("rating", true)] (data (getBooksByGenre c r st)).
Proof.
  unfold getBooksByGenre. split; [| split].
  - destruct (params r !! "genre") as [g|]; [| reflexivity]. intros H. rewrite H. reflexivity.
  - intros g d Hg Hd. rewrite Hg in Hd. destruct (trim g).
    + apply elem_of_nil in Hd. contradiction.
    + apply list_page_data_in in Hd as [e [He ->]].
      apply list_elem_of_filter in He as [He _]. split.
      * rewrite select_no_v_lookup by discriminate. exact He.
      * unfold select_no_v, with_id. simpl.
        rewrite lookup_insert_ne by discriminate. apply lookup_delete_eq.
  - destruct (params r !! "genre") as [g|]; [| exact I]. destruct (trim g); [exact I |].
    apply list_page_sorted. intros x y. apply select_no_v_cmp. repeat constructor; discriminate.
Qed.

Lemma getBooksByGenre_spec_witness :
  getBooksByGenre ctx0 (mkReq None {[ "genre" := "  " ]} ∅ ∅) bstore = status_only 400.
Proof.
  apply (proj1 (getBooksByGenre_spec ctx0 (mkReq None {[ "genre" := "  " ]} ∅ ∅) bstore)).
  vm_compute. reflexivity.
Defined.









Lemma truthy_num (n : Z) : n <> 0 -> truthy (VNum n) = true.
Proof. intros H. destruct n; [congruence | reflexivity | reflexivity]. Qed.

Lemma rating_in_range (z : Z) : 0 <= z <= 5 -> ((z <? 0) || (5 <? z)) = false.
Proof.
  intros H. apply orb_false_iff. split; apply Z.ltb_ge; lia.
Qed.

(** X21: [updateBookRating] answers 400 without a [rating], and 400 to a
    numeric rating below 0 or above 5, writing nothing; a rating in range
    with a non-zero numeric [reviewCount] on an existing book is saved
    as given, both fields at once, and the saved book is returned without
    [__v]. No caller check is made. *)
Theorem updateBookRating_validation (castOid : string -> bool) (sn : string -> jsnum)
    (dt : Z -> string) (c : Ctx) (r : Req) (st : Store) :
  (body r !! "rating" = None -> updateBookRating castOid sn dt c r st = (status_only 400, st)) /\
  (forall z, body r !! "rating" = Some (VNum z) -> z < 0 \/ 5 < z ->
     updateBookRating castOid sn dt c r st = (status_only 400, st)) /\
  (forall z rc d, body r !! "rating" = Some (VNum z) -> 0 <= z <= 5 ->
     body r !! "reviewCount" = Some (VNum rc) -> rc <> 0 ->
     castOid (param r "id") = true -> findById (param r "id") (books st) = Some d ->
     updateBookRating castOid sn dt c r st =
       (mkResp 200 [select_no_v (param r "id",
                     <["rating" := VNum z]> (<["reviewCount" := VNum rc]> d))] None,
        mkStore (replaceById (param r "id")
                   (<["rating" := VNum z]> (<["reviewCount" := VNum rc]> d)) (books st))
                (requests st))).
Proof.
  unfold updateBookRating. split; [| split].
  - intros H. rewrite H. reflexivity.
  - intros z H Hz. rewrite H. unfold js_lt, js_gt. simpl.
    destruct Hz as [Hz|Hz].
    + rewrite (proj2 (Z.ltb_lt z 0) Hz). reflexivity.
    + rewrite (proj2 (Z.ltb_lt 5 z) Hz), orb_true_r. reflexivity.
  - intros z rc d H Hz Hrc Hrc0 Hc Hd. rewrite H. unfold js_lt, js_gt. simpl.
    rewrite (rating_in_range z Hz), Hrc, (truthy_num rc Hrc0). simpl.
    rewrite Hc. simpl. rewrite Hd. reflexivity.
Qed.

Definition rating_req (id : string) (b : gmap string Val) : Req := mkReq None {[ "id" := id ]} ∅ b.

Lemma updateBookRating_validation_witness :
  updateBookRating (fun _ => true) (fun _ => None) (fun _ => EmptyString) ctx0
    (rating_req bid1 {[ "rating" := VNum 4; "reviewCount" := VNum 3 ]}) bstore =
  (mkResp 200 [select_no_v (bid1, <["rating" := VNum 4]> (<["reviewCount" := VNum 3]> book_doc))] None,
   mkStore (replaceById bid1 (<["rating" := VNum 4]> (<["reviewCount" := VNum 3]> book_doc))
              (books bstore)) (requests bstore)).
Proof.
  apply (proj2 (proj2 (updateBookRating_validation (fun _ => true) (fun _ => None)
           (fun _ => EmptyString) ctx0
           (rating_req bid1 {[ "rating" := VNum 4; "reviewCount" := VNum 3 ]}) bstore))
           4 3 book_doc); try reflexivity; try lia; discriminate.
Defined.



(** X23: [chatWithAI] answers 400, sending nothing, when [message] is not
    a string or is blank once trimmed. With a key configured and a client
    built, exactly one message goes out, the trimmed one, and the answer is
    the completion, or the canned reply when the call fails; when the
    client could not be built, nothing is sent and the canned reply is
    given. *)
Theorem chatWithAI_with_key (e : Env) (ctor_ok : bool) (api : string -> option string)
    (b : gmap string Val) :
  ((forall m, b !! "message" <> Some (VStr m)) -> chatWithAI e ctor_ok api b = (Chat400, [])) /\
  (forall m, b !! "message" = Some (VStr m) -> trim m = EmptyString ->
     chatWithAI e ctor_ok api b = (Chat400, [])) /\
  (forall m, b !! "message" = Some (VStr m) -> trim m <> EmptyString ->
     truthy_str (OPENAI_API_KEY e) = true ->
     chatWithAI e ctor_ok api b =
       if ctor_ok
       then (Chat200 (match api (trim m) with
                      | Some t => Completion t
                      | None => CannedReply (generateAIResponse (trim m))
                      end), [trim m])
       else (Chat200 (CannedReply (generateAIResponse (trim m))), [])).
Proof.
  unfold chatWithAI. split; [| split].
  - intros H. destruct (b !! "message") as [[s| | | | | |]|]; try reflexivity.
    exfalso. exact (H s eq_refl).
  - intros m H Ht. rewrite H, Ht. reflexivity.
  - intros m H Ht Hk. rewrite H. unfold openai_client. rewrite Hk.
    destruct (trim m) as [|ch s]; [congruence |].
    destruct ctor_ok; simpl; [destruct (api (String ch s)) |]; reflexivity.
Qed.

Definition env_key : Env := mkEnv None None (Some "sk-test").

Lemma chatWithAI_with_key_witness :
  chatWithAI env_key true (fun _ => None) hi_body
    = (Chat200 (CannedReply (generateAIResponse (trim "  Hi, hello!  "))), [trim "  Hi, hello!  "]).
Proof.
  exact (proj2 (proj2 (chatWithAI_with_key env_key true (fun _ => None) hi_body))
           "  Hi, hello!  " eq_refl ltac:(vm_compute; discriminate) eq_refl).
Defined.



Lemma top_list_in (l : jsnum) (ks : list SortKey) (m : Coll) (d : Doc) :
  d ∈ data (top_list l ks m) -> exists e, e ∈ m /\ d = select_no_v e.
Proof.
  unfold top_list. destruct l as [l|]; simpl; [| intros Hd; apply elem_of_nil in Hd; contradiction].
  intros Hd. apply list_elem_of_In, in_map_iff in Hd as [e [<- He]].
  exists e. split; [| reflexivity]. apply list_elem_of_In in He.
  apply (subseteq_take _ _) in He. rewrite (sort_by_perm _ _) in He. exact He.
Qed.

Lemma top_list_sorted (l : jsnum) (ks : list SortKey) (m : Coll) :
  Forall (fun kd => kd.1 <> "_id" /\ kd.1 <> "__v") ks ->
  sorted_docs ks (data (top_list l ks m)).
Proof.
  intros Hk. unfold top_list. destruct l as [l|]; simpl; [| exact I].
  rewrite <- (drop_0 (sort_by _ m)). apply sorted_page.
  intros a b. apply select_no_v_cmp. exact Hk.
Qed.

Lemma mongo_true_some (o : option Val) : mongo_true o = true -> o = Some (VBool true).
Proof. destruct o as [[| | |[]| | |]|]; simpl; congruence. Qed.

Lemma select_no_v_no_v (e : string * Doc) : select_no_v e !! "__v" = None.
Proof.
  unfold select_no_v, with_id. simpl.
  rewrite lookup_insert_ne by discriminate. apply lookup_delete_eq.
Qed.

(** X25: every book [getFeaturedBooks] returns is a stored book with
    [featured] set to [true], without [__v], newest first; every book
    [getAvailableBooks] returns is a stored book with [availability] set to
    [true], without [__v]; [getBooksByAuthor] answers 400 to a blank
    author and 500 to an author that does not compile as a pattern. *)
Theorem book_lists_filters (rok : string -> bool) (rt : string -> string -> bool)
    (c : Ctx) (r : Req) (st : Store) :
  (forall d, d ∈ data (getFeaturedBooks c r st) ->
     (exists e, e ∈ books st /\ d = select_no_v e) /\
     d !! "featured" = Some (VBool true) /\ d !! "__v" = None) /\
  sorted_docs [("createdAt", true)] (data (getFeaturedBooks c r st)) /\
  (forall d, d ∈ data (getAvailableBooks c r st) ->
     (exists e, e ∈ books st /\ d = select_no_v e) /\
     d !! "availability" = Some (VBool true) /\ d !! "__v" = None) /\
  (forall a, params r !! "author" = Some a -> trim a = EmptyString ->
     getBooksByAuthor rok rt c r st = status_only 400) /\
  (forall a, params r !! "author" = Some a -> trim a <> EmptyString -> rok a = false ->
     getBooksByAuthor rok rt c r st = status_only 500).
Proof.
  split; [| split; [| split; [| split]]].
  - intros d Hd. unfold getFeaturedBooks in Hd.
    apply top_list_in in Hd as [e [He ->]].
    apply list_elem_of_filter in He as [Hf He].
    split; [exists e; split; [exact He | reflexivity] |]. split.
    + rewrite select_no_v_lookup by discriminate. apply mongo_true_some. exact Hf.
    + apply select_no_v_no_v.
  - apply top_list_sorted. repeat constructor; discriminate.
  - intros d Hd. unfold getAvailableBooks in Hd.
    apply list_page_data_in in Hd as [e [He ->]].
    apply list_elem_of_filter in He as [Hf He].
    split; [exists e; split; [exact He | reflexivity] |]. split.
    + rewrite select_no_v_lookup by discriminate. apply mongo_true_some. exact Hf.
    + apply select_no_v_no_v.
  - intros a H Ht. unfold getBooksByAuthor. rewrite H, Ht. reflexivity.
  - intros a H Ht Hr. unfold getBooksByAuthor. rewrite H, Hr.
    destruct (trim a); [congruence | reflexivity].
Qed.

Lemma book_lists_filters_witness :
  getBooksByAuthor (fun _ => false) (fun _ _ => true) ctx0
    (mkReq None {[ "author" := "Herbert(" ]} ∅ ∅) bstore = status_only 500.
Proof.
  assert (Ha : params (mkReq None {[ "author" := "Herbert(" ]} ∅ ∅) !! "author" = Some "Herbert(")
    by (vm_compute; reflexivity).
  apply (proj2 (proj2 (proj2 (proj2 (book_lists_filters (fun _ => false) (fun _ _ => true)
           ctx0 (mkReq None {[ "author" := "Herbert(" ]} ∅ ∅) bstore))))
           "Herbert(" Ha); [vm_compute; discriminate | reflexivity].
Defined.




